(** * Order-to-cash and fiscal ledger engine: model and verified properties

    A shallow embedding of the instance methods of the Sequelize models
    [Venda], [NotaFiscal], [ItemVenda], [Produto] and [ContaReceber].

    Conventions of the embedding:
    - a JavaScript number is an IEEE 754 binary64 value, Rocq's primitive
      [float]; its arithmetic and comparisons are the primitive ones;
    - a [Date] is its time value, an integer count of milliseconds since
      the epoch (invalid dates are not modelled); a DATEONLY attribute
      keeps the local calendar day of the date assigned to it and reads
      back as midnight UTC of that day; the local zone is a constant
      offset from UTC;
    - a method that mutates [this] and may throw is a function from the
      receiver to an outcome together with the receiver as the method
      leaves it; [await this.save()] only persists and is the identity
      on the in-memory receiver;
    - every [throw new Error(msg)] of the models is one constructor of
      [exn], named after the error taxonomy of the specification. *)

From Stdlib Require Import ZArith List Bool String Ascii Lia.
From Stdlib Require Import Uint63 Floats.
Import ListNotations.

Set Warnings "-inexact-float".


Local Open Scope Z_scope.

(* ------------------------------------------------------------------ *)
(** ** Outcomes of a method call *)

(** The [Error] values thrown by the models, one per message:
    - [IllegalTransitionError]: Venda.atualizarStatus, status not allowed;
    - [InvalidStateError]: NotaFiscal.cancelar, status is not 'autorizada';
    - [ValidationError]: NotaFiscal.cancelar, justification too short;
    - [OverpaymentError]: ContaReceber.registrarRecebimento;
    - [InsufficientStockError]: Produto.atualizarEstoque, 'saida';
    - [InvalidOperationError]: Produto.atualizarEstoque, unknown [tipo];
    - [NotRecurringError]: ContaReceber.gerarProximaRecorrencia. *)
Inductive exn : Type :=
  | IllegalTransitionError
  | InvalidStateError
  | ValidationError
  | OverpaymentError
  | InsufficientStockError
  | InvalidOperationError
  | NotRecurringError.

Inductive outcome (A : Type) : Type :=
  | Returned (a : A)
  | Thrown (e : exn).

Arguments Returned {A} a.
Arguments Thrown {A} e.

(** A method of a receiver of type [S] returning an [A]. *)
Definition method (S A : Type) : Type := S -> outcome A * S.

Definition ret {S A : Type} (a : A) : method S A := fun s => (Returned a, s).
Definition throw {S A : Type} (e : exn) : method S A := fun s => (Thrown e, s).
Definition bind {S A B : Type} (m : method S A) (k : A -> method S B) : method S B :=
  fun s =>
    match m s with
    | (Returned a, s') => k a s'
    | (Thrown e, s') => (Thrown e, s')
    end.
Definition get {S : Type} : method S S := fun s => (Returned s, s).
Definition modify {S : Type} (f : S -> S) : method S unit := fun s => (Returned tt, f s).

Declare Scope method_scope.
Delimit Scope method_scope with method.
Notation "x <- m ;; k" := (bind m (fun x => k))
  (at level 61, m at next level, right associativity) : method_scope.
Notation "m ;;; k" := (bind m (fun _ => k))
  (at level 61, right associativity) : method_scope.

(* ------------------------------------------------------------------ *)
(** ** The JavaScript built-ins the models call *)

Module JS.

(** *** Numbers *)

Definition number : Set := float.

(** [parseFloat(x)] for a number [x]: the argument is converted to a
    string and parsed back, which returns [x] again except that the
    negative zero prints as "0" and so comes back as [+0]. *)
Definition parseFloat (x : number) : number :=
  if is_zero x then 0%float else x.

(** The number that an integer denotes (exact below 2^53 in absolute
    value, which covers every time value and every day count). *)
Definition ofZ (z : Z) : number :=
  if z <? 0 then (- of_uint63 (Uint63.of_Z (- z)))%float
  else of_uint63 (Uint63.of_Z z).

(** [Math.floor]. A finite number is [m * 2^e] with a sign: with
    [e >= 0] it is an integer already, otherwise the mantissa is
    shifted down, rounding toward minus infinity. *)
Definition Math_floor (x : number) : number :=
  match Prim2SF x with
  | S754_finite s m e =>
      if 0 <=? e then x
      else ofZ (Z.shiftr (if s then Z.neg m else Z.pos m) (- e))
  | _ => x
  end.

(** *** Strings *)

Definition digitChar (d : Z) : ascii := ascii_of_nat (48 + Z.to_nat d).

Definition isDigit (c : ascii) : bool :=
  let n := nat_of_ascii c in (48 <=? n)%nat && (n <=? 57)%nat.

(** [parseInt(c)] for a one-character string: the digit, or [NaN]
    ([None]) for any other character. *)
Definition parseInt (c : ascii) : option Z :=
  if isDigit c then Some (Z.of_nat (nat_of_ascii c) - 48) else None.

(** The decimal digits of a non-negative integer, most significant
    first, pushed in front of [acc]. *)
Fixpoint decimal_digits (fuel : nat) (n : Z) (acc : string) : string :=
  match fuel with
  | O => acc
  | S fuel' =>
      let acc' := String (digitChar (n mod 10)) acc in
      if n <? 10 then acc' else decimal_digits fuel' (n / 10) acc'
  end.

(** [Number.prototype.toString()] on an integer. *)
Definition toString (n : Z) : string :=
  if n <? 0
  then String "-" (decimal_digits (S (Z.to_nat (Z.log2 (- n)))) (- n) EmptyString)
  else decimal_digits (S (Z.to_nat (Z.log2 n))) n EmptyString.

Fixpoint repeat_char (c : ascii) (n : nat) : string :=
  match n with
  | O => EmptyString
  | S n' => String c (repeat_char c n')
  end.

(** [s.padStart(n, c)]: pads on the left up to [n], never truncates. *)
Definition padStart (n : nat) (c : ascii) (s : string) : string :=
  (repeat_char c (n - String.length s) ++ s)%string.

(** [s.slice(i, j)] for [0 <= i <= j]. *)
Definition slice (i j : nat) (s : string) : string :=
  substring i (j - i) s.

(** *** Dates (ECMA-262, section "Date objects") *)

Definition msPerDay : Z := 86400000.
Definition msPerHour : Z := 3600000.
Definition msPerMinute : Z := 60000.
Definition msPerSecond : Z := 1000.

Definition Day (t : Z) : Z := t / msPerDay.
Definition TimeWithinDay (t : Z) : Z := t mod msPerDay.

Definition DaysInYear (y : Z) : Z :=
  if negb (y mod 4 =? 0) then 365
  else if negb (y mod 100 =? 0) then 366
  else if negb (y mod 400 =? 0) then 365
  else 366.

Definition DayFromYear (y : Z) : Z :=
  365 * (y - 1970) + (y - 1969) / 4 - (y - 1901) / 100 + (y - 1601) / 400.

(** The largest [y] with [DayFromYear y <= Day t]: an estimate from
    the mean year length, corrected by one year at most. *)
Definition YearFromTime (t : Z) : Z :=
  let d := Day t in
  let y := 1970 + (d * 400) / 146097 in
  if d <? DayFromYear y then y - 1
  else if DayFromYear (y + 1) <=? d then y + 1
  else y.

Definition InLeapYear (t : Z) : Z :=
  if DaysInYear (YearFromTime t) =? 366 then 1 else 0.

Definition DayWithinYear (t : Z) : Z := Day t - DayFromYear (YearFromTime t).

Definition MonthFromTime (t : Z) : Z :=
  let d := DayWithinYear t in
  let leap := InLeapYear t in
  if d <? 31 then 0
  else if d <? 59 + leap then 1
  else if d <? 90 + leap then 2
  else if d <? 120 + leap then 3
  else if d <? 151 + leap then 4
  else if d <? 181 + leap then 5
  else if d <? 212 + leap then 6
  else if d <? 243 + leap then 7
  else if d <? 273 + leap then 8
  else if d <? 304 + leap then 9
  else if d <? 334 + leap then 10
  else 11.

(** Days of the year before month [m] (0-based) begins. *)
Definition daysBeforeMonth (m leap : Z) : Z :=
  match m with
  | 0 => 0
  | 1 => 31
  | 2 => 59 + leap
  | 3 => 90 + leap
  | 4 => 120 + leap
  | 5 => 151 + leap
  | 6 => 181 + leap
  | 7 => 212 + leap
  | 8 => 243 + leap
  | 9 => 273 + leap
  | 10 => 304 + leap
  | _ => 334 + leap
  end.

Definition DateFromTime (t : Z) : Z :=
  DayWithinYear t - daysBeforeMonth (MonthFromTime t) (InLeapYear t) + 1.

Definition HourFromTime (t : Z) : Z := (t / msPerHour) mod 24.
Definition MinFromTime (t : Z) : Z := (t / msPerMinute) mod 60.
Definition SecFromTime (t : Z) : Z := (t / msPerSecond) mod 60.
Definition msFromTime (t : Z) : Z := t mod msPerSecond.

(** [MakeDay(year, month, date)]: the month may lie outside 0..11 and
    the date outside the month; both are carried over. *)
Definition MakeDay (year month date : Z) : Z :=
  let ym := year + month / 12 in
  let mn := month mod 12 in
  DayFromYear ym
  + daysBeforeMonth mn (if DaysInYear ym =? 366 then 1 else 0)
  + date - 1.

Definition MakeDate (day time : Z) : Z := day * msPerDay + time.

(** Local time, for a process whose zone is a constant offset
    [tza] (milliseconds east of UTC). *)
Definition LocalTime (tza t : Z) : Z := t + tza.
Definition UTC (tza t : Z) : Z := t - tza.

(** [Date.prototype.getMonth()] and [Date.prototype.setMonth(m)]. *)
Definition getMonth (tza t : Z) : Z := MonthFromTime (LocalTime tza t).

Definition setMonth (tza t month : Z) : Z :=
  let lt := LocalTime tza t in
  UTC tza (MakeDate (MakeDay (YearFromTime lt) month (DateFromTime lt))
                    (TimeWithinDay lt)).

Definition pad (n : nat) (z : Z) : string := padStart n "0" (toString z).

(** [Date.prototype.toISOString()]: "YYYY-MM-DDTHH:mm:ss.sssZ" in UTC,
    the year with a sign and six digits outside 0..9999. *)
Definition isoYear (y : Z) : string :=
  if (0 <=? y) && (y <=? 9999) then pad 4 y
  else if y <? 0 then String "-" (pad 6 (- y))
  else String "+" (pad 6 y).

Definition toISOString (t : Z) : string :=
  (isoYear (YearFromTime t) ++ "-" ++ pad 2 (MonthFromTime t + 1) ++ "-"
   ++ pad 2 (DateFromTime t) ++ "T" ++ pad 2 (HourFromTime t) ++ ":"
   ++ pad 2 (MinFromTime t) ++ ":" ++ pad 2 (SecFromTime t) ++ "."
   ++ pad 3 (msFromTime t) ++ "Z")%string.

(** [Date.UTC(y, m, d)] for an in-range month (1-based here) and day:
    midnight of a calendar day, used to write dates down. *)
Definition ymd (y m d : Z) : Z := MakeDate (MakeDay y (m - 1) d) 0.

End JS.

(* ------------------------------------------------------------------ *)
(** ** Attributes of the models *)

Module Sequelize.

(** What a DATEONLY attribute holds once a [Date] has been assigned to
    it, on an instance or through [Model.create]: the attribute keeps
    [moment(date).format('YYYY-MM-DD')], the calendar day of the date in
    the local zone, and [new Date(attribute)] reads it back as midnight
    UTC of that day. [tza] is the offset of the process's time zone. *)
Definition dateonly (tza t : Z) : Z :=
  JS.Day (JS.LocalTime tza t) * JS.msPerDay.

End Sequelize.

(* ------------------------------------------------------------------ *)
(** ** Venda: the sale status machine *)

Module Venda.

(** The ENUM of the [status] column. *)
Inductive status : Type :=
  | pendente
  | aprovada
  | em_separacao
  | faturada
  | em_transporte
  | entregue
  | cancelada.

Definition status_eqb (a b : status) : bool :=
  match a, b with
  | pendente, pendente
  | aprovada, aprovada
  | em_separacao, em_separacao
  | faturada, faturada
  | em_transporte, em_transporte
  | entregue, entregue
  | cancelada, cancelada => true
  | _, _ => false
  end.

(** The fields [atualizarStatus] reads or writes. *)
Record t : Type := mk {
  status_of : status;
  data_entrega_realizada : option Z
}.

(** The table [statusValidos] of [atualizarStatus]. *)
Definition statusValidos (s : status) : list status :=
  match s with
  | pendente => [aprovada; cancelada]
  | aprovada => [em_separacao; cancelada]
  | em_separacao => [faturada; cancelada]
  | faturada => [em_transporte; entregue; cancelada]
  | em_transporte => [entregue; cancelada]
  | entregue => []
  | cancelada => []
  end.

(** [Array.prototype.includes]. *)
Definition includes (l : list status) (x : status) : bool :=
  existsb (status_eqb x) l.

(** [Venda.prototype.atualizarStatus]; [agora] is the value of the
    [new Date()] taken when the sale is delivered. *)
Definition atualizarStatus (agora : Z) (novoStatus : status) : method t bool :=
  (this <- get ;;
   if negb (includes (statusValidos (status_of this)) novoStatus)
   then throw IllegalTransitionError
   else
     modify (fun v => mk novoStatus (data_entrega_realizada v)) ;;;
     (if status_eqb novoStatus entregue
      then modify (fun v => mk (status_of v) (Some agora))
      else ret tt) ;;;
     ret true)%method.

(** [Venda.prototype.podeSerCancelada]. *)
Definition podeSerCancelada (this : t) : bool :=
  negb (includes [entregue; cancelada] (status_of this)).

(** The transition table as the specification words it: the legal
    set of each state. *)
Definition spec_legal (from target : status) : bool :=
  match from, target with
  | pendente, (aprovada | cancelada) => true
  | aprovada, (em_separacao | cancelada) => true
  | em_separacao, (faturada | cancelada) => true
  | faturada, (em_transporte | entregue | cancelada) => true
  | em_transporte, (entregue | cancelada) => true
  | _, _ => false
  end.

End Venda.

(* ------------------------------------------------------------------ *)
(** ** NotaFiscal: access key and cancellation *)

Module NotaFiscal.

Inductive tipo_documento : Type := nfce | nfe.

Inductive status : Type :=
  | em_digitacao
  | pendente
  | processando
  | autorizada
  | cancelada
  | rejeitada
  | inutilizada.

Definition status_eqb (a b : status) : bool :=
  match a, b with
  | em_digitacao, em_digitacao
  | pendente, pendente
  | processando, processando
  | autorizada, autorizada
  | cancelada, cancelada
  | rejeitada, rejeitada
  | inutilizada, inutilizada => true
  | _, _ => false
  end.

(** The columns the two methods use: [numero] and [serie] are
    INTEGER columns, [data_emissao] a DATE (its time value). *)
Record t : Type := mk {
  tipo : tipo_documento;
  numero : Z;
  serie : Z;
  data_emissao : Z;
  status_of : status;
  justificativa_cancelamento : option string
}.

(** The [empresa] argument of [gerarChaveAcesso]: [codigo_uf] is
    converted with [toString()], [cnpj] is a string already. *)
Record empresa : Type := mkEmpresa {
  codigo_uf : Z;
  cnpj : string
}.

(** One round of the check-digit loop: [soma += parseInt(c) * peso];
    [None] is [NaN], which every later sum keeps. *)
Definition somaStep (soma : option Z) (c : ascii) (peso : Z) : option Z :=
  match soma, JS.parseInt c with
  | Some s, Some d => Some (s + d * peso)
  | _, _ => None
  end.

(** The loop [for (i = length - 1; i >= 0; i--)], over the characters
    of the base from the last to the first. *)
Fixpoint somaLoop (rev_chars : list ascii) (soma : option Z) (peso : Z) : option Z :=
  match rev_chars with
  | [] => soma
  | c :: rest =>
      somaLoop rest (somaStep soma c peso) (if peso =? 9 then 2 else peso + 1)
  end.

(** [dv = 11 - (soma % 11)] and its string; [%] is the remainder of
    the truncating division. *)
Definition digitoVerificador (baseChave : string) : string :=
  match somaLoop (rev (list_ascii_of_string baseChave)) (Some 0) 2 with
  | None => "NaN"%string
  | Some soma =>
      let dv := 11 - Z.rem soma 11 in
      if (dv =? 10) || (dv =? 11) then "0"%string else JS.toString dv
  end.

Definition baseChave (emp : empresa) (cNF : Z) (this : t) : string :=
  let uf := JS.padStart 2 "0" (JS.toString (codigo_uf emp)) in
  let iso := JS.toISOString (data_emissao this) in
  let data := (JS.slice 2 4 iso ++ JS.slice 5 7 iso)%string in
  let cnpj := JS.padStart 14 "0" (cnpj emp) in
  let modelo := match tipo this with nfce => "65"%string | nfe => "55"%string end in
  let serie := JS.padStart 3 "0" (JS.toString (serie this)) in
  let numero := JS.padStart 9 "0" (JS.toString (numero this)) in
  let tpEmis := "1"%string in
  let cNF := JS.padStart 8 "0" (JS.toString cNF) in
  (uf ++ data ++ cnpj ++ modelo ++ serie ++ numero ++ tpEmis ++ cNF)%string.

(** [NotaFiscal.prototype.gerarChaveAcesso]; [cNF] is the value of
    [Math.floor(Math.random() * 99999999)]. *)
Definition gerarChaveAcesso (emp : empresa) (cNF : Z) (this : t) : string :=
  let base := baseChave emp cNF this in
  (base ++ digitoVerificador base)%string.

(** [!justificativa || justificativa.length < 15]; an absent argument
    and the empty string are falsy. *)
Definition justificativaInvalida (j : option string) : bool :=
  match j with
  | None => true
  | Some s => (String.length s =? 0)%nat || (String.length s <? 15)%nat
  end.

(** [NotaFiscal.prototype.cancelar]. *)
Definition cancelar (justificativa : option string) : method t bool :=
  (this <- get ;;
   if negb (existsb (status_eqb (status_of this)) [autorizada])
   then throw InvalidStateError
   else if justificativaInvalida justificativa
   then throw ValidationError
   else
     modify (fun n => mk (tipo n) (numero n) (serie n) (data_emissao n)
                         cancelada justificativa) ;;;
     ret true)%method.

(** The check digit as the specification words it: the character at
    distance [k] from the end of the base has weight [2 + k mod 8]
    (2,3,...,9,2,3,...), [dv = 11 - (sum mod 11)], and a [dv] of 10 or
    11 gives 0. *)
Definition spec_weight (k : Z) : Z := 2 + k mod 8.

Definition digitValue (c : ascii) : Z := Z.of_nat (nat_of_ascii c) - 48.

Fixpoint spec_weighted_sum (rev_chars : list ascii) (k : Z) : Z :=
  match rev_chars with
  | [] => 0
  | c :: rest => digitValue c * spec_weight k + spec_weighted_sum rest (k + 1)
  end.

Definition spec_check_digit (base : string) : Z :=
  let dv := 11 - (spec_weighted_sum (rev (list_ascii_of_string base)) 0) mod 11 in
  if (dv =? 10) || (dv =? 11) then 0 else dv.

Definition allDigits (s : string) : bool :=
  forallb JS.isDigit (list_ascii_of_string s).

End NotaFiscal.

(* ------------------------------------------------------------------ *)
(** ** ContaReceber: settlement, late charges, recurrence *)

Module ContaReceber.

Inductive status : Type :=
  | em_aberto
  | parcialmente_recebido
  | recebido
  | cancelado
  | vencido
  | protestado.

Definition status_eqb (a b : status) : bool :=
  match a, b with
  | em_aberto, em_aberto
  | parcialmente_recebido, parcialmente_recebido
  | recebido, recebido
  | cancelado, cancelado
  | vencido, vencido
  | protestado, protestado => true
  | _, _ => false
  end.

Inductive periodicidade : Type :=
  | mensal
  | bimestral
  | trimestral
  | semestral
  | anual.

(** The columns the methods use. The amounts are numbers; the dates
    are DATEONLY attributes, held as the time values of
    [new Date(column)] (midnight UTC of the calendar day); a nullable
    column is an [option]. *)
Record t : Type := mk {
  data_vencimento : Z;
  data_recebimento : option Z;
  valor_original : JS.number;
  valor_juros : JS.number;
  valor_multa : JS.number;
  valor_desconto : JS.number;
  valor_recebido : JS.number;
  valor_restante : JS.number;
  status_of : status;
  recorrente : bool;
  periodicidade_of : option periodicidade;
  data_proximo_vencimento : option Z
}.

Definition set_valor_restante (x : JS.number) (c : t) : t :=
  mk (data_vencimento c) (data_recebimento c) (valor_original c) (valor_juros c)
     (valor_multa c) (valor_desconto c) (valor_recebido c) x (status_of c)
     (recorrente c) (periodicidade_of c) (data_proximo_vencimento c).

Definition set_valor_recebido (x : JS.number) (c : t) : t :=
  mk (data_vencimento c) (data_recebimento c) (valor_original c) (valor_juros c)
     (valor_multa c) (valor_desconto c) x (valor_restante c) (status_of c)
     (recorrente c) (periodicidade_of c) (data_proximo_vencimento c).

Definition set_data_recebimento (d : option Z) (c : t) : t :=
  mk (data_vencimento c) d (valor_original c) (valor_juros c)
     (valor_multa c) (valor_desconto c) (valor_recebido c) (valor_restante c)
     (status_of c) (recorrente c) (periodicidade_of c) (data_proximo_vencimento c).

Definition set_status (st : status) (c : t) : t :=
  mk (data_vencimento c) (data_recebimento c) (valor_original c) (valor_juros c)
     (valor_multa c) (valor_desconto c) (valor_recebido c) (valor_restante c) st
     (recorrente c) (periodicidade_of c) (data_proximo_vencimento c).

Definition set_valor_multa (x : JS.number) (c : t) : t :=
  mk (data_vencimento c) (data_recebimento c) (valor_original c) (valor_juros c)
     x (valor_desconto c) (valor_recebido c) (valor_restante c) (status_of c)
     (recorrente c) (periodicidade_of c) (data_proximo_vencimento c).

Definition set_valor_juros (x : JS.number) (c : t) : t :=
  mk (data_vencimento c) (data_recebimento c) (valor_original c) x
     (valor_multa c) (valor_desconto c) (valor_recebido c) (valor_restante c)
     (status_of c) (recorrente c) (periodicidade_of c) (data_proximo_vencimento c).

(** The amount [calcularValorRestante] computes. *)
Definition restante (c : t) : JS.number :=
  let valorTotal :=
    (JS.parseFloat (valor_original c) + JS.parseFloat (valor_juros c)
     + JS.parseFloat (valor_multa c) - JS.parseFloat (valor_desconto c))%float in
  (valorTotal - JS.parseFloat (valor_recebido c))%float.

(** [ContaReceber.prototype.calcularValorRestante]: stores the amount
    in [valor_restante] and returns it. *)
Definition calcularValorRestante : method t JS.number :=
  (this <- get ;;
   modify (set_valor_restante (restante this)) ;;;
   this' <- get ;;
   ret (valor_restante this'))%method.

(** The object [registrarRecebimento] returns. *)
Record recibo : Type := mkRecibo {
  valorRecebido : JS.number;
  valorRestante : JS.number;
  status_recibo : status
}.

(** [ContaReceber.prototype.registrarRecebimento]; [a > b] on numbers
    is [b < a]; [data_recebimento] is a DATEONLY attribute. *)
Definition registrarRecebimento (tza : Z) (valorRecebido : JS.number)
    (dataRecebimento : Z) : method t recibo :=
  (valorRestanteAtual <- calcularValorRestante ;;
   if (valorRestanteAtual <? valorRecebido)%float
   then throw OverpaymentError
   else
     modify (fun c => set_valor_recebido
                        (JS.parseFloat (valor_recebido c) + JS.parseFloat valorRecebido)%float c) ;;;
     modify (set_data_recebimento (Some (Sequelize.dateonly tza dataRecebimento))) ;;;
     calcularValorRestante ;;;
     this <- get ;;
     (if (valor_restante this =? 0)%float
      then modify (set_status recebido)
      else if (0 <? valor_recebido this)%float
      then modify (set_status parcialmente_recebido)
      else ret tt) ;;;
     this' <- get ;;
     ret (mkRecibo (valor_recebido this') (valor_restante this') (status_of this')))%method.

(** [ContaReceber.prototype.estaVencida]; [hoje] is the clock read by
    [new Date()]. *)
Definition estaVencida (hoje : Z) (this : t) : bool :=
  (data_vencimento this <? hoje) && negb (status_eqb (status_of this) recebido).

(** The object [calcularJurosMulta] returns. *)
Record encargos : Type := mkEncargos {
  juros : JS.number;
  multa : JS.number
}.

(** [Math.floor((dataBase - vencimento) / (1000 * 60 * 60 * 24))]. *)
Definition diasAtraso (dataBase vencimento : Z) : JS.number :=
  JS.Math_floor ((JS.ofZ dataBase - JS.ofZ vencimento) / 86400000)%float.

(** [ContaReceber.prototype.calcularJurosMulta]; [hoje] is the clock
    read inside [estaVencida], [dataBase] the argument. *)
Definition calcularJurosMulta (hoje dataBase : Z) : method t encargos :=
  (this <- get ;;
   if negb (estaVencida hoje this) then ret (mkEncargos 0%float 0%float)
   else
     let dias := diasAtraso dataBase (data_vencimento this) in
     let multa := (valor_original this * 0.02)%float in
     let juros := (valor_original this * (0.00033 * dias))%float in
     modify (set_valor_multa multa) ;;;
     modify (set_valor_juros juros) ;;;
     ret (mkEncargos juros multa))%method.

(** The table [periodos]. *)
Definition periodos (p : periodicidade) : Z :=
  match p with
  | mensal => 1
  | bimestral => 2
  | trimestral => 3
  | semestral => 6
  | anual => 12
  end.

(** [ContaReceber.prototype.gerarProximaRecorrencia]: the receiver is
    only read; the value is the entry [ContaReceber.create] builds from
    the clone, whose DATEONLY [data_vencimento] keeps the local day of
    [novaData]. [tza] is the offset of the process's time zone. *)
Definition gerarProximaRecorrencia (tza : Z) (this : t) : outcome t :=
  match recorrente this, periodicidade_of this with
  | true, Some p =>
      let novaData :=
        JS.setMonth tza (data_vencimento this)
                    (JS.getMonth tza (data_vencimento this) + periodos p) in
      Returned (mk (Sequelize.dateonly tza novaData) None
                   (valor_original this) (valor_juros this)
                   (valor_multa this) (valor_desconto this) 0%float
                   (valor_original this) em_aberto (recorrente this)
                   (periodicidade_of this) None)
  | _, _ => Thrown NotRecurringError
  end.

(** The receiver after an accepted settlement, before the status is set. *)
Definition creditado (tza : Z) (v : JS.number) (d : Z) (c : t) : t :=
  let c1 := set_data_recebimento (Some (Sequelize.dateonly tza d))
              (set_valor_recebido (JS.parseFloat (valor_recebido c) + JS.parseFloat v)%float
                 (set_valor_restante (restante c) c)) in
  set_valor_restante (restante c1) c1.

(** The receiver after an accepted settlement: the status follows the
    recomputed remainder and the new received amount. *)
Definition apos_recebimento (tza : Z) (v : JS.number) (d : Z) (c : t) : t :=
  let c2 := creditado tza v d c in
  if (valor_restante c2 =? 0)%float then set_status recebido c2
  else if (0 <? valor_recebido c2)%float then set_status parcialmente_recebido c2
  else c2.

(** A sample entry: 100.00 due on 2024-01-15, monthly, nothing received. *)
Definition conta_exemplo : t :=
  mk (JS.ymd 2024 1 15) None 100%float 0%float 0%float 0%float 0%float 100%float
     em_aberto true (Some mensal) None.

(** The charges [calcularJurosMulta] stores on an overdue entry. *)
Definition multa_devida (c : t) : JS.number := (valor_original c * 0.02)%float.

Definition juros_devidos (dataBase : Z) (c : t) : JS.number :=
  (valor_original c * (0.00033 * diasAtraso dataBase (data_vencimento c)))%float.

(** A sample recurring entry of 100.00 with a given due date. *)
Definition conta_recorrente (vencimento : Z) (p : periodicidade) : t :=
  mk vencimento None 100%float 0%float 0%float 0%float 0%float 100%float em_aberto true
     (Some p) None.

End ContaReceber.

(* ------------------------------------------------------------------ *)
(** ** ItemVenda: line totals *)

Module ItemVenda.

(** The columns [calcularTotais] uses, as numbers; [margem_lucro] is
    nullable. *)
Record t : Type := mk {
  quantidade : JS.number;
  preco_unitario : JS.number;
  desconto_percentual : JS.number;
  desconto_valor : JS.number;
  acrescimo_percentual : JS.number;
  acrescimo_valor : JS.number;
  valor_total : JS.number;
  custo_unitario : JS.number;
  margem_lucro : option JS.number
}.

(** The object [calcularTotais] returns; a field that could hold
    [null] is an [option]. *)
Record totais : Type := mkTotais {
  subtotal : JS.number;
  desconto : JS.number;
  acrescimo : JS.number;
  total : JS.number;
  margem : option JS.number
}.

Definition valorDesconto (this : t) : JS.number :=
  if (0 <? desconto_percentual this)%float
  then (preco_unitario this * quantidade this * desconto_percentual this / 100)%float
  else desconto_valor this.

Definition valorAcrescimo (this : t) : JS.number :=
  if (0 <? acrescimo_percentual this)%float
  then (preco_unitario this * quantidade this * acrescimo_percentual this / 100)%float
  else acrescimo_valor this.

Definition custoTotal (this : t) : JS.number :=
  (custo_unitario this * quantidade this)%float.

(** [ItemVenda.prototype.calcularTotais]. *)
Definition calcularTotais : method t totais :=
  (this <- get ;;
   let vd := valorDesconto this in
   let va := valorAcrescimo this in
   let vt := (preco_unitario this * quantidade this - vd + va)%float in
   let ct := custoTotal this in
   let ml := ((vt - ct) / ct * 100)%float in
   modify (fun i => mk (quantidade i) (preco_unitario i) (desconto_percentual i)
                       (desconto_valor i) (acrescimo_percentual i) (acrescimo_valor i)
                       vt (custo_unitario i) (Some ml)) ;;;
   ret (mkTotais (preco_unitario this * quantidade this)%float vd va vt (Some ml)))%method.

(** [ItemVenda.prototype.validarQuantidade]. *)
Definition validarQuantidade (estoqueDisponivel : JS.number) (this : t) : bool :=
  (quantidade this <=? estoqueDisponivel)%float.

End ItemVenda.

(* ------------------------------------------------------------------ *)
(** ** Produto: stock movements *)

Module Produto.

Inductive status : Type :=
  | ativo
  | inativo
  | em_promocao
  | esgotado.

Definition status_eqb (a b : status) : bool :=
  match a, b with
  | ativo, ativo
  | inativo, inativo
  | em_promocao, em_promocao
  | esgotado, esgotado => true
  | _, _ => false
  end.

Record t : Type := mk {
  estoque_atual : JS.number;
  status_of : status
}.

(** The object [verificarEstoque] returns. *)
Record disponibilidade : Type := mkDisponibilidade {
  disponivel : bool;
  saldo : JS.number
}.

(** [Produto.prototype.verificarEstoque]; [a >= b] is [b <= a]. *)
Definition verificarEstoque (quantidade : JS.number) (this : t) : disponibilidade :=
  mkDisponibilidade (quantidade <=? estoque_atual this)%float
                    (estoque_atual this - quantidade)%float.

(** The object [atualizarEstoque] returns. *)
Record movimento : Type := mkMovimento {
  oldStock : JS.number;
  newStock : JS.number;
  difference : JS.number
}.

(** [Produto.prototype.atualizarEstoque]. *)
Definition atualizarEstoque (quantidade : JS.number) (tipo : string) : method t movimento :=
  (this <- get ;;
   let oldStock := estoque_atual this in
   (if String.eqb tipo "entrada"
    then modify (fun p => mk (JS.parseFloat (estoque_atual p) + JS.parseFloat quantidade)%float
                             (status_of p))
    else if String.eqb tipo "saida"
    then
      if (JS.parseFloat (estoque_atual this) <? JS.parseFloat quantidade)%float
      then throw InsufficientStockError
      else modify (fun p => mk (JS.parseFloat (estoque_atual p) - JS.parseFloat quantidade)%float
                               (status_of p))
    else throw InvalidOperationError) ;;;
   this' <- get ;;
   (if (estoque_atual this' <=? 0)%float
    then modify (fun p => mk (estoque_atual p) esgotado)
    else if status_eqb (status_of this') esgotado
    then modify (fun p => mk (estoque_atual p) ativo)
    else ret tt) ;;;
   this'' <- get ;;
   ret (mkMovimento oldStock (estoque_atual this'')
                    (estoque_atual this'' - oldStock)%float))%method.

End Produto.

(* ------------------------------------------------------------------ *)
(** ** Venda: monetary totals *)

Module VendaValores.

(** The monetary columns of a sale, as numbers. *)
Record t : Type := mk {
  subtotal : JS.number;
  desconto_percentual : JS.number;
  desconto_valor : JS.number;
  acrescimo_percentual : JS.number;
  acrescimo_valor : JS.number;
  valor_frete : JS.number;
  valor_total : JS.number
}.

(** The object [calcularTotais] returns. *)
Record totais : Type := mkTotais {
  r_subtotal : JS.number;
  r_desconto : JS.number;
  r_acrescimo : JS.number;
  r_frete : JS.number;
  r_total : JS.number
}.

Definition valorDesconto (this : t) : JS.number :=
  if (0 <? desconto_percentual this)%float
  then (subtotal this * desconto_percentual this / 100)%float
  else desconto_valor this.

Definition valorAcrescimo (this : t) : JS.number :=
  if (0 <? acrescimo_percentual this)%float
  then (subtotal this * acrescimo_percentual this / 100)%float
  else acrescimo_valor this.

(** [Venda.prototype.calcularTotais]. *)
Definition calcularTotais : method t totais :=
  (this <- get ;;
   let vd := valorDesconto this in
   let va := valorAcrescimo this in
   let vt := (JS.parseFloat (subtotal this) - JS.parseFloat vd
              + JS.parseFloat va + JS.parseFloat (valor_frete this))%float in
   modify (fun v => mk (subtotal v) (desconto_percentual v) (desconto_valor v)
                       (acrescimo_percentual v) (acrescimo_valor v) (valor_frete v) vt) ;;;
   ret (mkTotais (subtotal this) vd va (valor_frete this) vt))%method.

End VendaValores.

(* ------------------------------------------------------------------ *)
(** ** Produto: current price and margin *)

Module ProdutoPrecos.

(** The price columns of a product; a nullable column is an [option],
    a DATE its time value. *)
Record t : Type := mk {
  preco_custo : JS.number;
  preco_venda : JS.number;
  margem_lucro : option JS.number;
  preco_promocional : option JS.number;
  data_inicio_promocao : option Z;
  data_fim_promocao : option Z
}.

(** Truthiness of a nullable number: [null], zero and [NaN] are falsy. *)
Definition truthy (x : option JS.number) : bool :=
  match x with
  | None => false
  | Some v => negb (is_zero v) && negb (is_nan v)
  end.

(** A nullable date in a relational comparison: [null] counts as 0. *)
Definition dateValue (d : option Z) : Z :=
  match d with
  | None => 0
  | Some v => v
  end.

(** [Produto.prototype.emPromocao], as the condition [getPrecoAtual]
    tests; [agora] is the clock read by [new Date()]. *)
Definition emPromocao (agora : Z) (this : t) : bool :=
  truthy (preco_promocional this)
  && (dateValue (data_inicio_promocao this) <=? agora)
  && (agora <=? dateValue (data_fim_promocao this)).

(** [Produto.prototype.getPrecoAtual]. *)
Definition getPrecoAtual (agora : Z) (this : t) : option JS.number :=
  if emPromocao agora this then preco_promocional this else Some (preco_venda this).

(** [Produto.prototype.calcularMargem]; [precoVenda || this.preco_venda]
    takes the column when the argument is falsy. *)
Definition calcularMargem (precoVenda : option JS.number) : method t JS.number :=
  (this <- get ;;
   let preco := match precoVenda with
                | Some v => if truthy precoVenda then v else preco_venda this
                | None => preco_venda this
                end in
   let m := ((preco - preco_custo this) / preco_custo this * 100)%float in
   modify (fun p => mk (preco_custo p) (preco_venda p) (Some m) (preco_promocional p)
                       (data_inicio_promocao p) (data_fim_promocao p)) ;;;
   ret m)%method.

End ProdutoPrecos.

(* ------------------------------------------------------------------ *)
(** ** Transportadora: delivery counters and rating *)

Module Transportadora.

(** The counters are INTEGER columns. *)
Record t : Type := mk {
  total_entregas : Z;
  entregas_no_prazo : Z;
  ultima_entrega : option Z;
  avaliacao : option JS.number
}.

(** [Transportadora.prototype.getDeliverySuccessRate]. *)
Definition getDeliverySuccessRate (this : t) : JS.number :=
  if total_entregas this =? 0 then 0%float
  else (JS.ofZ (entregas_no_prazo this) / JS.ofZ (total_entregas this) * 100)%float.

(** [Transportadora.prototype.registerDelivery]; [agora] is the clock. *)
Definition registerDelivery (agora : Z) (onTime : bool) : method t unit :=
  (modify (fun c => mk (total_entregas c + 1) (entregas_no_prazo c)
                       (ultima_entrega c) (avaliacao c)) ;;;
   (if onTime
    then modify (fun c => mk (total_entregas c) (entregas_no_prazo c + 1)
                             (ultima_entrega c) (avaliacao c))
    else ret tt) ;;;
   modify (fun c => mk (total_entregas c) (entregas_no_prazo c) (Some agora) (avaliacao c)) ;;;
   ret tt)%method.

(** [Transportadora.prototype.updateRating]; [a >= b] is [b <= a]. *)
Definition updateRating (rating : JS.number) : method t bool :=
  if ((0 <=? rating) && (rating <=? 5))%float
  then (modify (fun c => mk (total_entregas c) (entregas_no_prazo c) (ultima_entrega c)
                            (Some rating)) ;;;
        ret true)%method
  else ret false.

(** The carrier after a series of deliveries, in order. *)
Fixpoint registerDeliveries (agora : Z) (onTimes : list bool) (c : t) : t :=
  match onTimes with
  | [] => c
  | b :: rest => registerDeliveries agora rest (snd (registerDelivery agora b c))
  end.

End Transportadora.

(* ------------------------------------------------------------------ *)
(** ** Vocabulary of the statements and sample records *)

(** The inputs of [gerarChaveAcesso] whose fields fit the widths of the
    key: a region code of at most two digits, a tax id of at most 14
    digits, a series below 1000, a number below 10^9, a control number
    below 10^8 and an issue year of four digits. *)
Definition fields_fit (emp : NotaFiscal.empresa) (cNF : Z) (nf : NotaFiscal.t) : Prop :=
  0 <= NotaFiscal.codigo_uf emp <= 99
  /\ (String.length (NotaFiscal.cnpj emp) <= 14)%nat
  /\ NotaFiscal.allDigits (NotaFiscal.cnpj emp) = true
  /\ 0 <= NotaFiscal.serie nf <= 999
  /\ 0 <= NotaFiscal.numero nf <= 999999999
  /\ 0 <= cNF <= 99999999
  /\ 0 <= JS.YearFromTime (NotaFiscal.data_emissao nf) <= 9999.

(** The inputs of the example of the specification. *)
Definition empresa_exemplo : NotaFiscal.empresa :=
  NotaFiscal.mkEmpresa 35 "11222333000181".

Definition nota_exemplo : NotaFiscal.t :=
  NotaFiscal.mk NotaFiscal.nfe 1 1 (JS.ymd 2024 1 15) NotaFiscal.em_digitacao None.

Definition nota_autorizada : NotaFiscal.t :=
  NotaFiscal.mk NotaFiscal.nfe 1 1 (JS.ymd 2024 1 15) NotaFiscal.autorizada None.

(** The stock a successful outbound movement of [q] leaves. *)
Definition estoque_apos_saida (p : Produto.t) (q : JS.number) : JS.number :=
  (JS.parseFloat (Produto.estoque_atual p) - JS.parseFloat q)%float.

(** A number that is not finite: NaN or an infinity. *)
Definition not_finite (x : JS.number) : Prop :=
  Prim2SF x = S754_nan \/ exists s, Prim2SF x = S754_infinity s.

(** The margin [calcularTotais] stores. *)
Definition margem_calculada (i : ItemVenda.t) : JS.number :=
  let vt := (ItemVenda.preco_unitario i * ItemVenda.quantidade i
             - ItemVenda.valorDesconto i + ItemVenda.valorAcrescimo i)%float in
  ((vt - ItemVenda.custoTotal i) / ItemVenda.custoTotal i * 100)%float.

(** A line of two units at 10.00 with no cost recorded. *)
Definition item_custo_zero : ItemVenda.t :=
  (ItemVenda.mk 2 10 0 0 0 0 0 0 None)%float.

(** The place of a status on the path of a sale; 'cancelada' is last. *)
Definition rank (s : Venda.status) : Z :=
  match s with
  | Venda.pendente => 0
  | Venda.aprovada => 1
  | Venda.em_separacao => 2
  | Venda.faturada => 3
  | Venda.em_transporte => 4
  | Venda.entregue => 5
  | Venda.cancelada => 6
  end.

(** A series of transitions, each of which must succeed. *)
Fixpoint transicoes (agora : Z) (targets : list Venda.status) (v : Venda.t)
  : option Venda.t :=
  match targets with
  | [] => Some v
  | s :: rest =>
      match Venda.atualizarStatus agora s v with
      | (Returned _, v') => transicoes agora rest v'
      | (Thrown _, _) => None
      end
  end.

(* ================================================================== *)
(** * Verified properties *)

(** ** Sanity of the built-ins *)

Example toISOString_epoch :
  JS.toISOString 0 = "1970-01-01T00:00:00.000Z"%string.
Proof. vm_compute. reflexivity. Qed.

Example toISOString_2024 :
  JS.toISOString 1705321845123 = "2024-01-15T12:30:45.123Z"%string.
Proof. vm_compute. reflexivity. Qed.

Example toISOString_leap_day :
  JS.toISOString (JS.ymd 2024 2 29) = "2024-02-29T00:00:00.000Z"%string
  /\ JS.toISOString (JS.ymd 2024 2 29 + JS.msPerDay) = "2024-03-01T00:00:00.000Z"%string
  /\ JS.toISOString (JS.ymd 1900 2 28 + JS.msPerDay) = "1900-03-01T00:00:00.000Z"%string
  /\ JS.toISOString (-1) = "1969-12-31T23:59:59.999Z"%string.
Proof. vm_compute. repeat split; reflexivity. Qed.

Example Math_floor_examples :
  (JS.Math_floor 2.5 = 2 /\ JS.Math_floor (-2.5) = -3
   /\ JS.Math_floor 0.5 = 0 /\ JS.Math_floor (-0.5) = -1
   /\ JS.Math_floor 7 = 7 /\ JS.Math_floor (-7) = -7
   /\ JS.Math_floor 19737.999 = 19737)%float.
Proof. vm_compute. repeat split; reflexivity. Qed.

Example toString_examples :
  JS.toString 0 = "0"%string /\ JS.toString 35 = "35"%string
  /\ JS.toString 1234567890 = "1234567890"%string
  /\ JS.toString (-42) = "-42"%string
  /\ JS.padStart 3 "0" (JS.toString 7) = "007"%string
  /\ JS.padStart 3 "0" (JS.toString 12345) = "12345"%string.
Proof. vm_compute. repeat split; reflexivity. Qed.

Ltac run_method :=
  unfold bind, get, modify, ret, throw; cbn beta iota.

(** The year of a time value is the one the language standard defines:
    the year whose first day is the last not after the day of [t]. *)
Lemma YearFromTime_spec t :
  JS.DayFromYear (JS.YearFromTime t) <= JS.Day t < JS.DayFromYear (JS.YearFromTime t + 1).
Proof.
  unfold JS.YearFromTime. generalize (JS.Day t). intros d.
  cbv zeta.
  destruct (Z.ltb_spec d (JS.DayFromYear (1970 + d * 400 / 146097))) as [H1|H1].
  - unfold JS.DayFromYear in *. Z.div_mod_to_equations; lia.
  - destruct (Z.leb_spec (JS.DayFromYear (1970 + d * 400 / 146097 + 1)) d) as [H2|H2].
    + unfold JS.DayFromYear in *. Z.div_mod_to_equations; lia.
    + unfold JS.DayFromYear in *. Z.div_mod_to_equations; lia.
Qed.

(** ** Sale status machine *)

Lemma includes_statusValidos_spec (from target : Venda.status) :
  Venda.includes (Venda.statusValidos from) target = Venda.spec_legal from target.
Proof. destruct from, target; reflexivity. Qed.

(** C1. For every sale and every target status, [atualizarStatus]
    returns (with the status set to the target and nothing else changed
    but the delivery stamp) exactly when the target is in the legal set
    of the current status, per the table of the specification, and
    otherwise throws IllegalTransitionError leaving the sale as it was;
    pendente -> entregue throws, and every transition out of entregue or
    cancelada throws. *)
Theorem C1_sale_transition_table :
  (forall (agora : Z) (v : Venda.t) (target : Venda.status),
      Venda.atualizarStatus agora target v =
      if Venda.spec_legal (Venda.status_of v) target
      then (Returned true,
            Venda.mk target
              (if Venda.status_eqb target Venda.entregue
               then Some agora else Venda.data_entrega_realizada v))
      else (Thrown IllegalTransitionError, v))
  /\ (forall agora stamp,
         Venda.atualizarStatus agora Venda.entregue (Venda.mk Venda.pendente stamp)
         = (Thrown IllegalTransitionError, Venda.mk Venda.pendente stamp))
  /\ (forall agora stamp target,
         Venda.atualizarStatus agora target (Venda.mk Venda.entregue stamp)
         = (Thrown IllegalTransitionError, Venda.mk Venda.entregue stamp)
         /\ Venda.atualizarStatus agora target (Venda.mk Venda.cancelada stamp)
            = (Thrown IllegalTransitionError, Venda.mk Venda.cancelada stamp)).
Proof.
  assert (Hmain : forall agora v target,
      Venda.atualizarStatus agora target v =
      if Venda.spec_legal (Venda.status_of v) target
      then (Returned true,
            Venda.mk target
              (if Venda.status_eqb target Venda.entregue
               then Some agora else Venda.data_entrega_realizada v))
      else (Thrown IllegalTransitionError, v)).
  { intros agora [st de] target.
    unfold Venda.atualizarStatus, bind, get, modify, ret, throw; simpl.
    rewrite includes_statusValidos_spec.
    destruct (Venda.spec_legal st target); simpl; [|reflexivity].
    destruct (Venda.status_eqb target Venda.entregue); reflexivity. }
  split; [exact Hmain|split].
  - intros agora stamp. rewrite Hmain. reflexivity.
  - intros agora stamp target; split; rewrite Hmain; reflexivity.
Qed.

(** ** Strings and digits *)


Lemma length_append (s1 s2 : string) :
  String.length (s1 ++ s2) = (String.length s1 + String.length s2)%nat.
Proof. induction s1 as [|c s1 IH]; simpl; [reflexivity | now rewrite IH]. Qed.

Lemma list_ascii_append (s1 s2 : string) :
  list_ascii_of_string (s1 ++ s2)
  = (list_ascii_of_string s1 ++ list_ascii_of_string s2)%list.
Proof. induction s1 as [|c s1 IH]; simpl; [reflexivity | now rewrite IH]. Qed.

Lemma allDigits_append (s1 s2 : string) :
  NotaFiscal.allDigits (s1 ++ s2)
  = NotaFiscal.allDigits s1 && NotaFiscal.allDigits s2.
Proof. unfold NotaFiscal.allDigits. now rewrite list_ascii_append, forallb_app. Qed.

Lemma length_repeat_char c n : String.length (JS.repeat_char c n) = n.
Proof. induction n; simpl; congruence. Qed.

Lemma allDigits_repeat_zero n : NotaFiscal.allDigits (JS.repeat_char "0" n) = true.
Proof. induction n; [reflexivity | exact IHn]. Qed.

Lemma length_padStart n c s :
  (String.length s <= n)%nat -> String.length (JS.padStart n c s) = n.
Proof.
  intros H. unfold JS.padStart. rewrite length_append, length_repeat_char. lia.
Qed.

Lemma allDigits_padStart n s :
  NotaFiscal.allDigits s = true -> NotaFiscal.allDigits (JS.padStart n "0" s) = true.
Proof.
  intros H. unfold JS.padStart. now rewrite allDigits_append, allDigits_repeat_zero.
Qed.

Lemma isDigit_digitChar d : 0 <= d <= 9 -> JS.isDigit (JS.digitChar d) = true.
Proof.
  intros H.
  assert (E : d = 0 \/ d = 1 \/ d = 2 \/ d = 3 \/ d = 4 \/ d = 5 \/ d = 6
              \/ d = 7 \/ d = 8 \/ d = 9) by lia.
  repeat (destruct E as [E|E]; [subst d; reflexivity|]). subst d; reflexivity.
Qed.

Lemma digitValue_digitChar d : 0 <= d <= 9 -> NotaFiscal.digitValue (JS.digitChar d) = d.
Proof.
  intros H.
  assert (E : d = 0 \/ d = 1 \/ d = 2 \/ d = 3 \/ d = 4 \/ d = 5 \/ d = 6
              \/ d = 7 \/ d = 8 \/ d = 9) by lia.
  repeat (destruct E as [E|E]; [subst d; reflexivity|]). subst d; reflexivity.
Qed.

Lemma decimal_digits_length fuel : forall k n acc,
  (1 <= k)%nat -> 0 <= n < 10 ^ Z.of_nat k ->
  (String.length (JS.decimal_digits fuel n acc) <= k + String.length acc)%nat.
Proof.
  induction fuel as [|fuel IH]; intros k n acc Hk Hn; simpl; [lia|].
  destruct (Z.ltb_spec n 10) as [Hlt|Hge]; simpl; [lia|].
  destruct k as [|[|k]]; [lia| simpl in Hn; lia |].
  specialize (IH (S k) (n / 10) (String (JS.digitChar (n mod 10)) acc)).
  simpl String.length in IH.
  assert (Hdiv : 0 <= n / 10 < 10 ^ Z.of_nat (S k)).
  { replace (Z.of_nat (S (S k))) with (Z.of_nat (S k) + 1) in Hn by lia.
    rewrite Z.pow_add_r in Hn by lia. change (10 ^ 1) with 10 in Hn.
    split; [apply Z.div_pos; lia|].
    apply Z.div_lt_upper_bound; lia. }
  specialize (IH ltac:(lia) Hdiv). lia.
Qed.

Lemma decimal_digits_allDigits fuel : forall n acc,
  NotaFiscal.allDigits acc = true ->
  NotaFiscal.allDigits (JS.decimal_digits fuel n acc) = true.
Proof.
  induction fuel as [|fuel IH]; intros n acc Hacc; simpl; [exact Hacc|].
  assert (Hd : NotaFiscal.allDigits (String (JS.digitChar (n mod 10)) acc) = true).
  { unfold NotaFiscal.allDigits. cbn [list_ascii_of_string forallb].
    rewrite isDigit_digitChar by (pose proof (Z.mod_pos_bound n 10); lia). exact Hacc. }
  destruct (n <? 10); [exact Hd | now apply IH].
Qed.

Lemma toString_length k n :
  (1 <= k)%nat -> 0 <= n < 10 ^ Z.of_nat k -> (String.length (JS.toString n) <= k)%nat.
Proof.
  intros Hk Hn. unfold JS.toString.
  destruct (Z.ltb_spec n 0); [destruct Hn; lia|].
  pose proof (decimal_digits_length (S (Z.to_nat (Z.log2 n))) k n EmptyString Hk Hn) as H1.
  change (String.length EmptyString) with 0%nat in H1.
  rewrite Nat.add_0_r in H1. exact H1.
Qed.

Lemma toString_allDigits n : 0 <= n -> NotaFiscal.allDigits (JS.toString n) = true.
Proof.
  intros Hn. unfold JS.toString.
  destruct (Z.ltb_spec n 0); [lia|].
  now apply decimal_digits_allDigits.
Qed.

Lemma toString_digit d :
  0 <= d <= 9 -> JS.toString d = String (JS.digitChar d) EmptyString.
Proof.
  intros H. unfold JS.toString.
  destruct (Z.ltb_spec d 0); [lia|]. cbn [JS.decimal_digits].
  destruct (Z.ltb_spec d 10); [|lia].
  now rewrite Z.mod_small by lia.
Qed.

Lemma pad_length n k z :
  (1 <= k <= n)%nat -> 0 <= z < 10 ^ Z.of_nat k -> String.length (JS.pad n z) = n.
Proof.
  intros Hk Hz. apply length_padStart.
  pose proof (toString_length k z ltac:(lia) Hz). lia.
Qed.

Lemma pad_allDigits n z : 0 <= z -> NotaFiscal.allDigits (JS.pad n z) = true.
Proof. intros Hz. apply allDigits_padStart. now apply toString_allDigits. Qed.


Lemma substring_append_left (s1 s2 : string) : forall n m,
  (n + m <= String.length s1)%nat -> substring n m (s1 ++ s2) = substring n m s1.
Proof.
  induction s1 as [|c s1 IH]; intros n m H; simpl in H.
  - assert (n = 0%nat) by lia. assert (m = 0%nat) by lia. subst.
    destruct s2; reflexivity.
  - destruct n as [|n]; simpl.
    + destruct m as [|m]; [reflexivity|]. f_equal. apply (IH 0%nat m). lia.
    + apply IH. lia.
Qed.

Lemma substring_append_right (s1 s2 : string) : forall n m,
  substring (String.length s1 + n) m (s1 ++ s2) = substring n m s2.
Proof. induction s1 as [|c s1 IH]; intros n m; simpl; [reflexivity | apply IH]. Qed.

Lemma substring_whole (s : string) : substring 0 (String.length s) s = s.
Proof. induction s as [|c s IH]; simpl; [reflexivity | now rewrite IH]. Qed.

Lemma length_substring (s : string) : forall n m,
  (n + m <= String.length s)%nat -> String.length (substring n m s) = m.
Proof.
  induction s as [|c s IH]; intros n m H; simpl in H.
  - assert (n = 0%nat) by lia. assert (m = 0%nat) by lia. subst. reflexivity.
  - destruct n as [|n]; simpl.
    + destruct m as [|m]; [reflexivity|]. simpl. f_equal. apply (IH 0%nat m). lia.
    + apply IH. lia.
Qed.

Lemma allDigits_substring (s : string) : forall n m,
  NotaFiscal.allDigits s = true -> NotaFiscal.allDigits (substring n m s) = true.
Proof.
  unfold NotaFiscal.allDigits.
  induction s as [|c s IH]; intros n m H.
  - destruct n, m; reflexivity.
  - cbn [list_ascii_of_string forallb] in H. apply andb_prop in H as [Hc Hs].
    destruct n as [|n]; cbn [substring].
    + destruct m as [|m]; [reflexivity|].
      cbn [list_ascii_of_string forallb]. rewrite Hc. apply (IH 0%nat m Hs).
    + apply IH, Hs.
Qed.

Lemma MonthFromTime_range t : 0 <= JS.MonthFromTime t <= 11.
Proof.
  unfold JS.MonthFromTime.
  repeat match goal with |- context [if ?c then _ else _] => destruct c end; lia.
Qed.

Lemma isoYear_four y : 0 <= y <= 9999 -> JS.isoYear y = JS.pad 4 y.
Proof.
  intros H. unfold JS.isoYear.
  destruct (Z.leb_spec 0 y); [|lia]. destruct (Z.leb_spec y 9999); [|lia]. reflexivity.
Qed.

Lemma pow10_4 : 10 ^ Z.of_nat 4 = 10000. Proof. reflexivity. Qed.

Lemma toISOString_slices t :
  0 <= JS.YearFromTime t <= 9999 ->
  JS.slice 2 4 (JS.toISOString t) = JS.slice 2 4 (JS.pad 4 (JS.YearFromTime t))
  /\ JS.slice 5 7 (JS.toISOString t) = JS.pad 2 (JS.MonthFromTime t + 1).
Proof.
  intros Hy. unfold JS.toISOString. rewrite (isoYear_four _ Hy).
  assert (HY : String.length (JS.pad 4 (JS.YearFromTime t)) = 4%nat).
  { apply (pad_length 4 4); [lia|]. rewrite pow10_4. lia. }
  assert (HM : String.length (JS.pad 2 (JS.MonthFromTime t + 1)) = 2%nat).
  { pose proof (MonthFromTime_range t).
    apply (pad_length 2 2); [lia|]. change (10 ^ Z.of_nat 2) with 100. lia. }
  set (Y := JS.pad 4 (JS.YearFromTime t)) in *.
  set (M := JS.pad 2 (JS.MonthFromTime t + 1)) in *.
  unfold JS.slice. split.
  - apply substring_append_left. rewrite HY. reflexivity.
  - change (5)%nat with (4 + 1)%nat at 1. rewrite <- HY at 1.
    rewrite substring_append_right.
    cbn [append substring Nat.sub].
    change (7 - (4 + 1))%nat with 2%nat.
    rewrite <- HM at 1.
    rewrite substring_append_left by lia. apply substring_whole.
Qed.

Lemma parseInt_digit c : JS.isDigit c = true -> JS.parseInt c = Some (NotaFiscal.digitValue c).
Proof. intros H. unfold JS.parseInt. now rewrite H. Qed.

Lemma digitValue_range c : JS.isDigit c = true -> 0 <= NotaFiscal.digitValue c <= 9.
Proof.
  unfold JS.isDigit, NotaFiscal.digitValue. intros H.
  apply andb_prop in H as [H1 H2].
  apply Nat.leb_le in H1. apply Nat.leb_le in H2. lia.
Qed.

Lemma spec_weight_next k :
  (if NotaFiscal.spec_weight k =? 9 then 2 else NotaFiscal.spec_weight k + 1)
  = NotaFiscal.spec_weight (k + 1).
Proof.
  unfold NotaFiscal.spec_weight.
  destruct (Z.eqb_spec (2 + k mod 8) 9); Z.div_mod_to_equations; lia.
Qed.

Lemma spec_weight_range k : 2 <= NotaFiscal.spec_weight k <= 9.
Proof. unfold NotaFiscal.spec_weight. Z.div_mod_to_equations; lia. Qed.

Lemma somaLoop_spec (l : list ascii) : forall acc k,
  forallb JS.isDigit l = true ->
  NotaFiscal.somaLoop l (Some acc) (NotaFiscal.spec_weight k)
  = Some (acc + NotaFiscal.spec_weighted_sum l k).
Proof.
  induction l as [|c l IH]; intros acc k H; cbn [NotaFiscal.somaLoop NotaFiscal.spec_weighted_sum].
  - f_equal. lia.
  - cbn [forallb] in H. apply andb_prop in H as [Hc Hl].
    unfold NotaFiscal.somaStep. rewrite (parseInt_digit c Hc), spec_weight_next.
    rewrite (IH _ _ Hl). f_equal. lia.
Qed.

Lemma spec_weighted_sum_nonneg (l : list ascii) : forall k,
  forallb JS.isDigit l = true -> 0 <= NotaFiscal.spec_weighted_sum l k.
Proof.
  induction l as [|c l IH]; intros k H; cbn [NotaFiscal.spec_weighted_sum]; [lia|].
  cbn [forallb] in H. apply andb_prop in H as [Hc Hl].
  pose proof (digitValue_range c Hc). pose proof (spec_weight_range k).
  pose proof (IH (k + 1) Hl). nia.
Qed.

Lemma forallb_rev {A} (f : A -> bool) (l : list A) : forallb f (rev l) = forallb f l.
Proof.
  induction l as [|a l IH]; [reflexivity|].
  cbn [rev forallb]. rewrite forallb_app, IH. cbn [forallb].
  destruct (f a), (forallb f l); reflexivity.
Qed.

Lemma spec_check_digit_range base : 0 <= NotaFiscal.spec_check_digit base <= 9.
Proof.
  unfold NotaFiscal.spec_check_digit.
  set (total := NotaFiscal.spec_weighted_sum _ _).
  pose proof (Z.mod_pos_bound total 11 ltac:(lia)).
  destruct (Z.eqb_spec (11 - total mod 11) 10); cbn [orb]; [lia|].
  destruct (Z.eqb_spec (11 - total mod 11) 11); lia.
Qed.

Lemma digitoVerificador_spec base :
  NotaFiscal.allDigits base = true ->
  NotaFiscal.digitoVerificador base
  = String (JS.digitChar (NotaFiscal.spec_check_digit base)) EmptyString.
Proof.
  intros H. unfold NotaFiscal.digitoVerificador, NotaFiscal.spec_check_digit.
  unfold NotaFiscal.allDigits in H. rewrite <- forallb_rev in H.
  change 2 with (NotaFiscal.spec_weight 0) at 1.
  rewrite (somaLoop_spec _ 0 0 H). rewrite Z.add_0_l.
  pose proof (spec_weighted_sum_nonneg _ 0 H) as Hnn.
  set (total := NotaFiscal.spec_weighted_sum _ _) in *.
  rewrite Z.rem_mod_nonneg by lia.
  pose proof (Z.mod_pos_bound total 11 ltac:(lia)).
  destruct (Z.eqb_spec (11 - total mod 11) 10); cbn [orb]; [reflexivity|].
  destruct (Z.eqb_spec (11 - total mod 11) 11); [reflexivity|].
  apply toString_digit. lia.
Qed.

(** ** Access key *)

(** C2 (amended). For every fiscal document and issuer whose fields
    fit their widths, and every control number below 10^8, the access
    key is exactly 44 characters: a 43-digit base made of the region
    code (2), the last two digits of the four-digit issue year and the
    two-digit month (4), the tax id (14), the document type (2, 65 for
    nfce and 55 otherwise), the series (3), the number (9), the flag 1
    and the control number (8), all zero-padded, followed by one check
    digit: the weighted sum of the base from the last character to the
    first with weights 2,3,...,9,2,..., dv = 11 - sum mod 11, and 0
    when dv is 10 or 11. *)
Theorem C2_access_key_layout (emp : NotaFiscal.empresa) (cNF : Z) (nf : NotaFiscal.t) :
  fields_fit emp cNF nf ->
  let uf := JS.pad 2 (NotaFiscal.codigo_uf emp) in
  let aa := JS.slice 2 4 (JS.pad 4 (JS.YearFromTime (NotaFiscal.data_emissao nf))) in
  let mm := JS.pad 2 (JS.MonthFromTime (NotaFiscal.data_emissao nf) + 1) in
  let cnpj := JS.padStart 14 "0" (NotaFiscal.cnpj emp) in
  let modelo := match NotaFiscal.tipo nf with
                | NotaFiscal.nfce => "65" | NotaFiscal.nfe => "55" end%string in
  let serie := JS.pad 3 (NotaFiscal.serie nf) in
  let numero := JS.pad 9 (NotaFiscal.numero nf) in
  let cnf := JS.pad 8 cNF in
  let base := (uf ++ (aa ++ mm) ++ cnpj ++ modelo ++ serie ++ numero ++ "1" ++ cnf)%string in
  map String.length [uf; aa; mm; cnpj; modelo; serie; numero; "1"%string; cnf]
  = [2; 2; 2; 14; 2; 3; 9; 1; 8]%nat
  /\ String.length base = 43%nat
  /\ NotaFiscal.allDigits base = true
  /\ 0 <= NotaFiscal.spec_check_digit base <= 9
  /\ NotaFiscal.gerarChaveAcesso emp cNF nf
     = (base ++ String (JS.digitChar (NotaFiscal.spec_check_digit base)) EmptyString)%string
  /\ String.length (NotaFiscal.gerarChaveAcesso emp cNF nf) = 44%nat.
Proof.
  intros (Huf & Hcl & Hcd & Hse & Hnu & Hcn & Hy).
  intros uf aa mm cnpj modelo serie numero cnf base.
  pose proof (MonthFromTime_range (NotaFiscal.data_emissao nf)) as Hm.
  assert (Luf : String.length uf = 2%nat).
  { apply (pad_length 2 2); [lia|]. change (10 ^ Z.of_nat 2) with 100. lia. }
  assert (LY : String.length (JS.pad 4 (JS.YearFromTime (NotaFiscal.data_emissao nf))) = 4%nat).
  { apply (pad_length 4 4); [lia|]. change (10 ^ Z.of_nat 4) with 10000. lia. }
  assert (Laa : String.length aa = 2%nat).
  { unfold aa, JS.slice. apply length_substring. rewrite LY. reflexivity. }
  assert (Lmm : String.length mm = 2%nat).
  { apply (pad_length 2 2); [lia|]. change (10 ^ Z.of_nat 2) with 100. lia. }
  assert (Lcnpj : String.length cnpj = 14%nat) by (apply length_padStart; exact Hcl).
  assert (Lmod : String.length modelo = 2%nat)
    by (unfold modelo; destruct (NotaFiscal.tipo nf); reflexivity).
  assert (Lser : String.length serie = 3%nat).
  { apply (pad_length 3 3); [lia|]. change (10 ^ Z.of_nat 3) with 1000. lia. }
  assert (Lnum : String.length numero = 9%nat).
  { apply (pad_length 9 9); [lia|]. change (10 ^ Z.of_nat 9) with 1000000000. lia. }
  assert (Lcnf : String.length cnf = 8%nat).
  { apply (pad_length 8 8); [lia|]. change (10 ^ Z.of_nat 8) with 100000000. lia. }
  assert (Lbase : String.length base = 43%nat).
  { unfold base. rewrite !length_append, Luf, Laa, Lmm, Lcnpj, Lmod, Lser, Lnum, Lcnf.
    reflexivity. }
  assert (Dbase : NotaFiscal.allDigits base = true).
  { unfold base. rewrite !allDigits_append.
    unfold uf, aa, mm, cnpj, serie, numero, cnf, JS.slice.
    rewrite !pad_allDigits by lia.
    rewrite allDigits_substring by (apply pad_allDigits; lia).
    rewrite allDigits_padStart by exact Hcd.
    unfold modelo. destruct (NotaFiscal.tipo nf); reflexivity. }
  assert (Ebase : NotaFiscal.baseChave emp cNF nf = base).
  { unfold NotaFiscal.baseChave.
    destruct (toISOString_slices _ Hy) as [-> ->]. reflexivity. }
  assert (Ekey : NotaFiscal.gerarChaveAcesso emp cNF nf
     = (base ++ String (JS.digitChar (NotaFiscal.spec_check_digit base)) EmptyString)%string).
  { unfold NotaFiscal.gerarChaveAcesso. rewrite Ebase.
    now rewrite (digitoVerificador_spec base Dbase). }
  repeat split.
  - cbn [map]. now rewrite Luf, Laa, Lmm, Lcnpj, Lmod, Lser, Lnum, Lcnf.
  - exact Lbase.
  - exact Dbase.
  - apply spec_check_digit_range.
  - apply spec_check_digit_range.
  - exact Ekey.
  - rewrite Ekey, length_append, Lbase. reflexivity.
Qed.

Lemma C2_access_key_layout_witness :
  fields_fit empresa_exemplo 12345678 nota_exemplo
  /\ String.length (NotaFiscal.gerarChaveAcesso empresa_exemplo 12345678 nota_exemplo) = 44%nat.
Proof.
  assert (H : fields_fit empresa_exemplo 12345678 nota_exemplo).
  { unfold fields_fit.
    repeat split; first [vm_compute; reflexivity | vm_compute; discriminate | vm_compute; lia]. }
  split; [exact H|].
  apply (C2_access_key_layout empresa_exemplo 12345678 nota_exemplo H).
Defined.

Lemma C2_counterexample_long_number :
  String.length
    (NotaFiscal.gerarChaveAcesso empresa_exemplo 12345678
       (NotaFiscal.mk NotaFiscal.nfe 1234567890 1 (JS.ymd 2024 1 15)
          NotaFiscal.em_digitacao None)) <> 44%nat.
Proof. vm_compute. discriminate. Qed.

Example access_key_of_the_specification :
  NotaFiscal.gerarChaveAcesso empresa_exemplo 12345678 nota_exemplo
  = "35240111222333000181550010000000011123456788"%string.
Proof. vm_compute. reflexivity. Qed.

(** ** Cancellation of a fiscal document *)

Lemma NotaFiscal_status_eqb_eq (a b : NotaFiscal.status) :
  NotaFiscal.status_eqb a b = true <-> a = b.
Proof. destruct a, b; cbn; split; congruence. Qed.

Lemma cancelar_eq (j : option string) (nf : NotaFiscal.t) :
  NotaFiscal.cancelar j nf
  = if negb (NotaFiscal.status_eqb (NotaFiscal.status_of nf) NotaFiscal.autorizada)
    then (Thrown InvalidStateError, nf)
    else if NotaFiscal.justificativaInvalida j
    then (Thrown ValidationError, nf)
    else (Returned true,
          NotaFiscal.mk (NotaFiscal.tipo nf) (NotaFiscal.numero nf) (NotaFiscal.serie nf)
            (NotaFiscal.data_emissao nf) NotaFiscal.cancelada j).
Proof.
  unfold NotaFiscal.cancelar, bind, get. cbn beta iota. cbn [existsb].
  rewrite orb_false_r.
  destruct (NotaFiscal.status_eqb (NotaFiscal.status_of nf) NotaFiscal.autorizada);
    cbn [negb]; [|reflexivity].
  destruct (NotaFiscal.justificativaInvalida j); reflexivity.
Qed.

Lemma justificativaInvalida_short (s : string) :
  NotaFiscal.justificativaInvalida (Some s) = (String.length s <? 15)%nat.
Proof.
  cbn [NotaFiscal.justificativaInvalida].
  destruct (Nat.eqb_spec (String.length s) 0) as [E|E]; [now rewrite E|reflexivity].
Qed.

(** C4 (amended). [cancelar] throws InvalidStateError whenever the
    status is not 'autorizada', whatever the justification; on an
    authorized document it throws ValidationError for an absent
    justification or one shorter than 15 characters, and otherwise sets
    the status to 'cancelada' and stores the justification, after which
    every further cancellation throws InvalidStateError. *)
Theorem C4_cancel_fiscal_document :
  (forall (nf : NotaFiscal.t) (j : option string),
      NotaFiscal.status_of nf <> NotaFiscal.autorizada ->
      NotaFiscal.cancelar j nf = (Thrown InvalidStateError, nf))
  /\ (forall (nf : NotaFiscal.t) (s : string),
         NotaFiscal.status_of nf = NotaFiscal.autorizada ->
         (String.length s < 15)%nat ->
         NotaFiscal.cancelar (Some s) nf = (Thrown ValidationError, nf))
  /\ (forall (nf : NotaFiscal.t),
         NotaFiscal.status_of nf = NotaFiscal.autorizada ->
         NotaFiscal.cancelar None nf = (Thrown ValidationError, nf))
  /\ (forall (nf : NotaFiscal.t) (s : string),
         NotaFiscal.status_of nf = NotaFiscal.autorizada ->
         (15 <= String.length s)%nat ->
         let nf' := NotaFiscal.mk (NotaFiscal.tipo nf) (NotaFiscal.numero nf)
                      (NotaFiscal.serie nf) (NotaFiscal.data_emissao nf)
                      NotaFiscal.cancelada (Some s) in
         NotaFiscal.cancelar (Some s) nf = (Returned true, nf')
         /\ forall j', NotaFiscal.cancelar j' nf' = (Thrown InvalidStateError, nf')).
Proof.
  split; [|split; [|split]].
  - intros nf j H. rewrite cancelar_eq.
    destruct (NotaFiscal.status_eqb (NotaFiscal.status_of nf) NotaFiscal.autorizada) eqn:E;
      [apply NotaFiscal_status_eqb_eq in E; contradiction | reflexivity].
  - intros nf s H Hl. rewrite cancelar_eq, H, justificativaInvalida_short.
    apply Nat.ltb_lt in Hl. now rewrite Hl.
  - intros nf H. rewrite cancelar_eq, H. reflexivity.
  - intros nf s H Hl nf'. split.
    + rewrite cancelar_eq, H, justificativaInvalida_short.
      apply Nat.ltb_ge in Hl. now rewrite Hl.
    + intros j'. rewrite cancelar_eq. reflexivity.
Qed.

Lemma C4_cancel_fiscal_document_witness :
  NotaFiscal.cancelar (Some "erro"%string) nota_autorizada
  = (Thrown ValidationError, nota_autorizada)
  /\ NotaFiscal.cancelar (Some "pedido duplicado no sistema"%string) nota_autorizada
     = (Returned true,
        NotaFiscal.mk NotaFiscal.nfe 1 1 (JS.ymd 2024 1 15) NotaFiscal.cancelada
          (Some "pedido duplicado no sistema"%string)).
Proof.
  split.
  - apply (proj1 (proj2 C4_cancel_fiscal_document) nota_autorizada "erro"%string).
    + reflexivity.
    + cbn. lia.
  - apply (proj2 (proj2 (proj2 C4_cancel_fiscal_document)) nota_autorizada
             "pedido duplicado no sistema"%string).
    + reflexivity.
    + cbn. lia.
Defined.

Lemma C4_counterexample_short_on_cancelled :
  let nf := NotaFiscal.mk NotaFiscal.nfe 1 1 (JS.ymd 2024 1 15) NotaFiscal.cancelada
              (Some "pedido duplicado no sistema"%string) in
  (String.length "erro" < 15)%nat
  /\ NotaFiscal.cancelar (Some "erro"%string) nf = (Thrown InvalidStateError, nf)
  /\ Thrown InvalidStateError <> (Thrown ValidationError : outcome bool).
Proof.
  cbv zeta. split; [cbn; lia|]. split; [reflexivity | discriminate].
Qed.

(** ** Comparisons of numbers *)

Lemma SFcompare_swap (a b : spec_float) :
  SFcompare b a = option_map CompOpp (SFcompare a b).
Proof.
  destruct a as [sa|sa| |sa ma ea], b as [sb|sb| |sb mb eb]; cbn;
    try reflexivity; try (destruct sa; reflexivity); try (destruct sb; reflexivity);
    try (destruct sa, sb; reflexivity).
  destruct sa, sb; try reflexivity;
    rewrite (Z.compare_antisym ea eb);
    change (PosDef.Pos.compare_cont Eq mb ma) with (Pos.compare mb ma);
    change (PosDef.Pos.compare_cont Eq ma mb) with (Pos.compare ma mb);
    rewrite (Pos.compare_antisym ma mb);
    destruct (ea ?= eb); cbn; try reflexivity;
    destruct (ma ?= mb)%positive; reflexivity.
Qed.

Lemma leb_true_ltb_false (x y : float) :
  (x <=? y)%float = true -> (y <? x)%float = false.
Proof.
  rewrite leb_spec, ltb_spec. unfold SFleb, SFltb.
  rewrite (SFcompare_swap (Prim2SF x) (Prim2SF y)).
  destruct (SFcompare (Prim2SF x) (Prim2SF y)) as [[]|]; cbn; congruence.
Qed.

Lemma ltb_true_leb_false (x y : float) :
  (x <? y)%float = true -> (y <=? x)%float = false.
Proof.
  rewrite leb_spec, ltb_spec. unfold SFleb, SFltb.
  rewrite (SFcompare_swap (Prim2SF x) (Prim2SF y)).
  destruct (SFcompare (Prim2SF x) (Prim2SF y)) as [[]|]; cbn; congruence.
Qed.

Lemma is_zero_Prim2SF (x : float) :
  is_zero x = true -> exists s, Prim2SF x = S754_zero s.
Proof.
  unfold is_zero. rewrite eqb_spec.
  change (Prim2SF zero) with (S754_zero false).
  destruct (Prim2SF x) as [s|s| |s m e]; cbn; try discriminate.
  - intros _. now exists s.
  - destruct s; discriminate.
  - destruct s; discriminate.
Qed.

Lemma SFcompare_parseFloat_l (x : float) (f : spec_float) :
  SFcompare (Prim2SF (JS.parseFloat x)) f = SFcompare (Prim2SF x) f.
Proof.
  unfold JS.parseFloat. destruct (is_zero x) eqn:Hz; [|reflexivity].
  destruct (is_zero_Prim2SF x Hz) as [s ->].
  change (Prim2SF 0%float) with (S754_zero false). reflexivity.
Qed.

Lemma SFcompare_parseFloat_r (x : float) (f : spec_float) :
  SFcompare f (Prim2SF (JS.parseFloat x)) = SFcompare f (Prim2SF x).
Proof.
  rewrite SFcompare_swap, SFcompare_parseFloat_l, <- SFcompare_swap. reflexivity.
Qed.

Lemma ltb_parseFloat (x y : float) :
  (JS.parseFloat x <? JS.parseFloat y)%float = (x <? y)%float.
Proof.
  rewrite !ltb_spec. unfold SFltb.
  now rewrite SFcompare_parseFloat_l, SFcompare_parseFloat_r.
Qed.

Lemma leb_parseFloat (x y : float) :
  (JS.parseFloat x <=? JS.parseFloat y)%float = (x <=? y)%float.
Proof.
  rewrite !leb_spec. unfold SFleb.
  now rewrite SFcompare_parseFloat_l, SFcompare_parseFloat_r.
Qed.

(** ** Stock movements *)


(** C6. An outbound movement whose quantity is strictly greater than
    the current stock throws InsufficientStockError and leaves the
    product (stock and status) as it was; one whose quantity is at most
    the current stock returns, and the new stock is the current stock
    minus the quantity. *)
Theorem C6_outbound_movement (p : Produto.t) (q : JS.number) :
  ((Produto.estoque_atual p <? q)%float = true ->
   Produto.atualizarEstoque q "saida" p = (Thrown InsufficientStockError, p))
  /\ ((q <=? Produto.estoque_atual p)%float = true ->
      exists st,
        Produto.atualizarEstoque q "saida" p
        = (Returned (Produto.mkMovimento (Produto.estoque_atual p)
                       (estoque_apos_saida p q)
                       (estoque_apos_saida p q - Produto.estoque_atual p)%float),
           Produto.mk (estoque_apos_saida p q) st)).
Proof.
  destruct p as [e st]. unfold estoque_apos_saida. cbn [Produto.estoque_atual].
  split; intros H.
  - unfold Produto.atualizarEstoque. run_method.
    change (String.eqb "saida" "entrada") with false.
    change (String.eqb "saida" "saida") with true. cbn iota.
    cbn [Produto.estoque_atual]. rewrite ltb_parseFloat, H. reflexivity.
  - apply leb_true_ltb_false in H.
    unfold Produto.atualizarEstoque. run_method.
    change (String.eqb "saida" "entrada") with false.
    change (String.eqb "saida" "saida") with true. cbn iota.
    cbn [Produto.estoque_atual Produto.status_of]. rewrite ltb_parseFloat, H.
    cbn [Produto.estoque_atual Produto.status_of].
    destruct (JS.parseFloat e - JS.parseFloat q <=? 0)%float.
    + eexists. reflexivity.
    + destruct (Produto.status_eqb st Produto.esgotado); eexists; reflexivity.
Qed.

Lemma C6_outbound_movement_witness :
  Produto.atualizarEstoque 8%float "saida" (Produto.mk 5%float Produto.ativo)
  = (Thrown InsufficientStockError, Produto.mk 5%float Produto.ativo)
  /\ exists st,
       Produto.atualizarEstoque 3%float "saida" (Produto.mk 5%float Produto.ativo)
       = (Returned (Produto.mkMovimento 5%float
                      (estoque_apos_saida (Produto.mk 5%float Produto.ativo) 3%float)
                      (estoque_apos_saida (Produto.mk 5%float Produto.ativo) 3%float - 5)%float),
          Produto.mk (estoque_apos_saida (Produto.mk 5%float Produto.ativo) 3%float) st).
Proof.
  split.
  - apply (proj1 (C6_outbound_movement (Produto.mk 5%float Produto.ativo) 8%float)).
    reflexivity.
  - apply (proj2 (C6_outbound_movement (Produto.mk 5%float Produto.ativo) 3%float)).
    reflexivity.
Defined.

Lemma Produto_status_eqb_eq (a b : Produto.status) : Produto.status_eqb a b = true <-> a = b.
Proof. destruct a, b; cbn; split; congruence. Qed.

(** C7. After every call of [atualizarEstoque] that returns, entrada
    or saida and from any status, the status is 'esgotado' exactly when
    the new stock is <= 0; with a positive new stock 'esgotado' becomes
    'ativo' and every other status is kept, so 'em_promocao' and
    'inativo' are never restored by the method. *)
Theorem C7_stock_status_invariant (p p' : Produto.t) (q : JS.number) (tipo : string)
    (r : Produto.movimento) :
  Produto.atualizarEstoque q tipo p = (Returned r, p') ->
  (Produto.status_of p' = Produto.esgotado <-> (Produto.estoque_atual p' <=? 0)%float = true)
  /\ ((Produto.estoque_atual p' <=? 0)%float = false ->
      Produto.status_of p = Produto.esgotado -> Produto.status_of p' = Produto.ativo)
  /\ ((Produto.estoque_atual p' <=? 0)%float = false ->
      Produto.status_of p <> Produto.esgotado -> Produto.status_of p' = Produto.status_of p)
  /\ (Produto.status_of p' = Produto.em_promocao \/ Produto.status_of p' = Produto.inativo ->
      Produto.status_of p' = Produto.status_of p).
Proof.
  destruct p as [e st].
  assert (Hfin : forall e1,
    (let this' := Produto.mk e1 st in
     (if (e1 <=? 0)%float then Produto.mk e1 Produto.esgotado
      else if Produto.status_eqb st Produto.esgotado then Produto.mk e1 Produto.ativo
      else this') = p') ->
    (Produto.status_of p' = Produto.esgotado <-> (Produto.estoque_atual p' <=? 0)%float = true)
    /\ ((Produto.estoque_atual p' <=? 0)%float = false ->
        st = Produto.esgotado -> Produto.status_of p' = Produto.ativo)
    /\ ((Produto.estoque_atual p' <=? 0)%float = false ->
        st <> Produto.esgotado -> Produto.status_of p' = st)
    /\ (Produto.status_of p' = Produto.em_promocao \/ Produto.status_of p' = Produto.inativo ->
        Produto.status_of p' = st)).
  { intros e1. cbn zeta.
    destruct (e1 <=? 0)%float eqn:Hle.
    - intros <-. cbn [Produto.status_of Produto.estoque_atual]. rewrite Hle.
      repeat split; try congruence. intros [?|?]; discriminate.
    - destruct (Produto.status_eqb st Produto.esgotado) eqn:Hs.
      + apply Produto_status_eqb_eq in Hs. intros <-.
        cbn [Produto.status_of Produto.estoque_atual]. rewrite Hle.
        repeat split; try congruence. intros [?|?]; discriminate.
      + intros <-. cbn [Produto.status_of Produto.estoque_atual]. rewrite Hle.
        assert (st <> Produto.esgotado).
        { intros ->. discriminate. }
        repeat split; try congruence. }
  unfold Produto.atualizarEstoque. run_method. cbn [Produto.estoque_atual Produto.status_of].
  destruct (String.eqb tipo "entrada").
  - cbn [Produto.estoque_atual Produto.status_of].
    intros H. apply (Hfin (JS.parseFloat e + JS.parseFloat q)%float). cbn zeta.
    destruct (JS.parseFloat e + JS.parseFloat q <=? 0)%float;
      [|destruct (Produto.status_eqb st Produto.esgotado)];
      cbn beta iota in H; cbn [Produto.estoque_atual Produto.status_of] in H;
      now inversion H.
  - destruct (String.eqb tipo "saida"); [|discriminate].
    destruct (JS.parseFloat e <? JS.parseFloat q)%float; [discriminate|].
    cbn [Produto.estoque_atual Produto.status_of].
    intros H. apply (Hfin (JS.parseFloat e - JS.parseFloat q)%float). cbn zeta.
    destruct (JS.parseFloat e - JS.parseFloat q <=? 0)%float;
      [|destruct (Produto.status_eqb st Produto.esgotado)];
      cbn beta iota in H; cbn [Produto.estoque_atual Produto.status_of] in H;
      now inversion H.
Qed.

Lemma C7_stock_status_invariant_witness :
  (Produto.status_of (Produto.mk 7%float Produto.ativo) = Produto.esgotado
   <-> (Produto.estoque_atual (Produto.mk 7%float Produto.ativo) <=? 0)%float = true).
Proof.
  apply (C7_stock_status_invariant (Produto.mk 0%float Produto.esgotado)
           (Produto.mk 7%float Produto.ativo) 7%float "entrada"
           (Produto.mkMovimento 0%float 7%float 7%float)).
  reflexivity.
Defined.

(** ** Line totals *)



Lemma div_by_zero_times_100 (a z : float) :
  (z =? 0)%float = true -> not_finite (a / z * 100)%float.
Proof.
  intros Hz. destruct (is_zero_Prim2SF z Hz) as [s Hs].
  unfold not_finite. rewrite mul_spec, div_spec, Hs.
  change (Prim2SF 100%float) with (S754_finite false 7036874417766400 (-46)).
  unfold SF64mul, SF64div.
  destruct (Prim2SF a) as [sa|sa| |sa ma ea]; cbn [SFdiv SFmul];
    first [left; reflexivity | right; eexists; reflexivity].
Qed.

Lemma calcularTotais_eq (i : ItemVenda.t) :
  let vt := (ItemVenda.preco_unitario i * ItemVenda.quantidade i
             - ItemVenda.valorDesconto i + ItemVenda.valorAcrescimo i)%float in
  ItemVenda.calcularTotais i
  = (Returned (ItemVenda.mkTotais
                 (ItemVenda.preco_unitario i * ItemVenda.quantidade i)%float
                 (ItemVenda.valorDesconto i) (ItemVenda.valorAcrescimo i) vt
                 (Some (margem_calculada i))),
     ItemVenda.mk (ItemVenda.quantidade i) (ItemVenda.preco_unitario i)
       (ItemVenda.desconto_percentual i) (ItemVenda.desconto_valor i)
       (ItemVenda.acrescimo_percentual i) (ItemVenda.acrescimo_valor i)
       vt (ItemVenda.custo_unitario i) (Some (margem_calculada i))).
Proof. reflexivity. Qed.

(** C5 (amended). [calcularTotais] never throws; the margin it stores
    and returns is always the number ((total - cost) / cost) * 100 with
    cost = custo_unitario * quantidade, never null; when the cost is
    zero that number is NaN or an infinity. *)
Theorem C5_margin_is_a_number (i : ItemVenda.t) :
  exists r i',
    ItemVenda.calcularTotais i = (Returned r, i')
    /\ ItemVenda.total r
       = (ItemVenda.preco_unitario i * ItemVenda.quantidade i
          - ItemVenda.valorDesconto i + ItemVenda.valorAcrescimo i)%float
    /\ ItemVenda.margem r
       = Some ((ItemVenda.total r - ItemVenda.custoTotal i) / ItemVenda.custoTotal i * 100)%float
    /\ ItemVenda.margem_lucro i' = ItemVenda.margem r
    /\ ((ItemVenda.custoTotal i =? 0)%float = true -> not_finite (margem_calculada i)).
Proof.
  eexists. eexists. split; [apply calcularTotais_eq|].
  cbn [ItemVenda.total ItemVenda.margem ItemVenda.margem_lucro].
  repeat split. intros Hz. now apply div_by_zero_times_100.
Qed.

Lemma C5_margin_is_a_number_witness :
  (ItemVenda.custoTotal item_custo_zero =? 0)%float = true
  /\ not_finite (margem_calculada item_custo_zero).
Proof.
  split; [reflexivity|].
  destruct (C5_margin_is_a_number item_custo_zero) as (r & i' & _ & _ & _ & _ & H).
  apply H. reflexivity.
Defined.

Lemma C5_counterexample_zero_cost :
  (ItemVenda.custoTotal item_custo_zero =? 0)%float = true
  /\ ItemVenda.calcularTotais item_custo_zero
     = (Returned (ItemVenda.mkTotais 20 0 0 20 (Some infinity)),
        ItemVenda.mk 2 10 0 0 0 0 20 0 (Some infinity))%float
  /\ Some infinity <> (None : option JS.number).
Proof. split; [reflexivity|]. split; [vm_compute; reflexivity | discriminate]. Qed.

(** ** Ledger entries *)

Section Ledger.

Import ContaReceber.

Lemma calcularValorRestante_eq (c : t) :
  calcularValorRestante c = (Returned (restante c), set_valor_restante (restante c) c).
Proof. reflexivity. Qed.

Lemma registrarRecebimento_eq (tza : Z) (v : JS.number) (d : Z) (c : t) :
  registrarRecebimento tza v d c
  = if (restante c <? v)%float
    then (Thrown OverpaymentError, set_valor_restante (restante c) c)
    else (Returned (mkRecibo (valor_recebido (apos_recebimento tza v d c))
                             (valor_restante (apos_recebimento tza v d c))
                             (status_of (apos_recebimento tza v d c))),
          apos_recebimento tza v d c).
Proof.
  unfold registrarRecebimento, bind at 1. rewrite calcularValorRestante_eq.
  destruct (restante c <? v)%float; [reflexivity|].
  unfold apos_recebimento, creditado.
  unfold bind, modify, get, ret. cbn beta iota zeta.
  rewrite calcularValorRestante_eq. cbn beta iota.
  set (c2 := set_valor_restante _ _).
  destruct (valor_restante c2 =? 0)%float; [reflexivity|].
  destruct (0 <? valor_recebido c2)%float; reflexivity.
Qed.

(** C3 (amended). [registrarRecebimento] first refreshes the cached
    remainder original + interest + penalty - discount - received. An
    amount greater than it throws OverpaymentError and changes nothing
    else. Any other amount is added to the received amount, the local
    calendar day of the date is stored, the remainder is recomputed, and
    the status becomes 'recebido' when the recomputed remainder equals
    zero, else 'parcialmente_recebido' when the received amount is
    positive, else stays as it was. *)
Theorem C3_settlement (tza : Z) (c : t) (v : JS.number) (d : Z) :
  ((restante c <? v)%float = true ->
   registrarRecebimento tza v d c
   = (Thrown OverpaymentError, set_valor_restante (restante c) c))
  /\ ((restante c <? v)%float = false ->
      exists r c',
        registrarRecebimento tza v d c = (Returned r, c')
        /\ r = mkRecibo (valor_recebido c') (valor_restante c') (status_of c')
        /\ data_recebimento c' = Some (Sequelize.dateonly tza d)
        /\ valor_recebido c'
           = (JS.parseFloat (valor_recebido c) + JS.parseFloat v)%float
        /\ valor_restante c' = restante c'
        /\ status_of c'
           = (if (valor_restante c' =? 0)%float then recebido
              else if (0 <? valor_recebido c')%float then parcialmente_recebido
              else status_of c)
        /\ (valor_original c', valor_juros c', valor_multa c', valor_desconto c')
           = (valor_original c, valor_juros c, valor_multa c, valor_desconto c)
        /\ (data_vencimento c', recorrente c', periodicidade_of c', data_proximo_vencimento c')
           = (data_vencimento c, recorrente c, periodicidade_of c, data_proximo_vencimento c)).
Proof.
  rewrite registrarRecebimento_eq. split; intros ->; [reflexivity|].
  eexists. eexists. split; [reflexivity|].
  unfold apos_recebimento.
  set (c2 := creditado tza v d c).
  assert (F0 : data_recebimento c2 = Some (Sequelize.dateonly tza d)) by reflexivity.
  assert (F1 : valor_recebido c2
               = (JS.parseFloat (valor_recebido c) + JS.parseFloat v)%float) by reflexivity.
  assert (F2 : valor_restante c2 = restante c2) by reflexivity.
  assert (F3 : (valor_original c2, valor_juros c2, valor_multa c2, valor_desconto c2)
               = (valor_original c, valor_juros c, valor_multa c, valor_desconto c))
    by reflexivity.
  assert (F4 : (data_vencimento c2, recorrente c2, periodicidade_of c2,
                data_proximo_vencimento c2)
               = (data_vencimento c, recorrente c, periodicidade_of c,
                  data_proximo_vencimento c)) by reflexivity.
  assert (F5 : status_of c2 = status_of c) by reflexivity.
  clearbody c2.
  assert (R : forall st, restante (set_status st c2) = restante c2) by reflexivity.
  destruct (valor_restante c2 =? 0)%float eqn:Hz;
    [|destruct (0 <? valor_recebido c2)%float eqn:Hp];
    rewrite ?R;
    cbn [set_status valor_recebido valor_restante status_of valor_original valor_juros
         valor_multa valor_desconto data_vencimento recorrente periodicidade_of
         data_proximo_vencimento data_recebimento];
    rewrite ?Hz, ?Hp; repeat split; assumption.
Qed.

Lemma C3_settlement_witness :
  registrarRecebimento (-10800000) 150%float (JS.ymd 2024 1 10) conta_exemplo
  = (Thrown OverpaymentError, set_valor_restante (restante conta_exemplo) conta_exemplo)
  /\ exists r c',
       registrarRecebimento (-10800000) 40%float (JS.ymd 2024 1 10) conta_exemplo
       = (Returned r, c')
       /\ data_recebimento c' = Some (JS.ymd 2024 1 9).
Proof.
  split.
  - apply (proj1 (C3_settlement (-10800000) conta_exemplo 150%float (JS.ymd 2024 1 10))).
    reflexivity.
  - destruct (proj2 (C3_settlement (-10800000) conta_exemplo 40%float (JS.ymd 2024 1 10))
                eq_refl) as (r & c' & H & _ & Hd & _).
    exists r, c'. split; [exact H | exact Hd].
Defined.

Lemma C3_counterexample_zero_payment :
  (restante conta_exemplo <? 0)%float = false
  /\ (0 <? restante conta_exemplo)%float = true
  /\ status_of (snd (registrarRecebimento 0 0%float (JS.ymd 2024 1 10) conta_exemplo))
     = em_aberto
  /\ em_aberto <> parcialmente_recebido.
Proof. repeat split; try (vm_compute; reflexivity). discriminate. Qed.

(** Binary rounding: paying exactly the remaining amount of 0.27 on a
    0.30 entry with 0.03 received leaves a remainder of about -5.6e-17. *)
Example registrarRecebimento_rounding :
  let c := mk (JS.ymd 2024 1 15) None 0.3%float 0%float 0%float 0%float 0.03%float 0.27%float
              parcialmente_recebido
              false None None in
  restante c = 0.27%float
  /\ exists r c',
       registrarRecebimento 0 (restante c) (JS.ymd 2024 1 10) c = (Returned r, c')
       /\ status_of c' = parcialmente_recebido
       /\ (valor_restante c' =? 0)%float = false
       /\ (valor_restante c' <? 0)%float = true.
Proof.
  cbv zeta. split; [vm_compute; reflexivity|].
  eexists. eexists. split; [vm_compute; reflexivity|].
  repeat split.
Qed.

(** A refused settlement still refreshes the cached remainder. *)
Example registrarRecebimento_refused_refreshes_cache :
  let c := mk (JS.ymd 2024 1 15) None 100%float 0%float 0%float 0%float 0%float 0%float
              em_aberto false None None in
  registrarRecebimento 0 150%float (JS.ymd 2024 1 10) c
  = (Thrown OverpaymentError, set_valor_restante 100%float c)
  /\ set_valor_restante 100%float c <> c.
Proof.
  cbv zeta. split; [vm_compute; reflexivity|].
  intros H. apply (f_equal valor_restante) in H. cbn in H.
  apply (f_equal (fun x => (x =? 0)%float)) in H. vm_compute in H. discriminate.
Qed.

Lemma dateonly_is_a_day (tza d : Z) :
  JS.Day (Sequelize.dateonly tza d) = JS.Day (JS.LocalTime tza d)
  /\ JS.TimeWithinDay (Sequelize.dateonly tza d) = 0.
Proof.
  unfold Sequelize.dateonly, JS.Day, JS.TimeWithinDay, JS.msPerDay.
  split; Z.div_mod_to_equations; lia.
Qed.

(** C10. Every accepted settlement, partial or not, overwrites
    [data_recebimento] with the payment date supplied, kept as its
    calendar day in the local zone (the attribute is DATEONLY); so an
    entry can carry a date while being 'parcialmente_recebido', and a
    later accepted payment replaces the date of the earlier one. *)
Theorem C10_settlement_date_overwritten :
  (forall (tza : Z) (c : t) (v : JS.number) (d : Z),
      (restante c <? v)%float = false ->
      data_recebimento (snd (registrarRecebimento tza v d c))
      = Some (Sequelize.dateonly tza d))
  /\ (forall (tza d : Z),
         JS.Day (Sequelize.dateonly tza d) = JS.Day (JS.LocalTime tza d)
         /\ JS.TimeWithinDay (Sequelize.dateonly tza d) = 0)
  /\ (exists (tza : Z) (c : t) (v : JS.number) (d : Z),
         (restante c <? v)%float = false
         /\ status_of (snd (registrarRecebimento tza v d c)) = parcialmente_recebido
         /\ data_recebimento (snd (registrarRecebimento tza v d c)) <> None)
  /\ (forall (tza : Z) (c : t) (v1 v2 : JS.number) (d1 d2 : Z),
         let c1 := snd (registrarRecebimento tza v1 d1 c) in
         (restante c <? v1)%float = false ->
         (restante c1 <? v2)%float = false ->
         data_recebimento c1 = Some (Sequelize.dateonly tza d1)
         /\ data_recebimento (snd (registrarRecebimento tza v2 d2 c1))
            = Some (Sequelize.dateonly tza d2)).
Proof.
  assert (H1 : forall (tza : Z) (c : t) (v : JS.number) (d : Z),
      (restante c <? v)%float = false ->
      data_recebimento (snd (registrarRecebimento tza v d c))
      = Some (Sequelize.dateonly tza d)).
  { intros tza c v d H. rewrite registrarRecebimento_eq, H. cbn [snd].
    unfold apos_recebimento.
    destruct (valor_restante (creditado tza v d c) =? 0)%float; [reflexivity|].
    destruct (0 <? valor_recebido (creditado tza v d c))%float; reflexivity. }
  split; [exact H1|]. split; [exact dateonly_is_a_day|]. split.
  - exists 0, conta_exemplo, 40%float, (JS.ymd 2024 1 10).
    split; [vm_compute; reflexivity|]. split; [vm_compute; reflexivity|].
    rewrite H1 by (vm_compute; reflexivity). discriminate.
  - intros tza c v1 v2 d1 d2 c1 Ha Hb. split; [apply H1, Ha | apply H1, Hb].
Qed.

Lemma C10_settlement_date_overwritten_witness :
  data_recebimento
    (snd (registrarRecebimento (-10800000) 40%float (JS.ymd 2024 1 10 + 5400000)
            conta_exemplo))
  = Some (JS.ymd 2024 1 9).
Proof.
  apply (proj1 C10_settlement_date_overwritten (-10800000) conta_exemplo 40%float
           (JS.ymd 2024 1 10 + 5400000)).
  reflexivity.
Defined.

Lemma ContaReceber_status_eqb_eq (a b : status) : status_eqb a b = true <-> a = b.
Proof. destruct a, b; cbn; split; congruence. Qed.

Lemma estaVencida_iff (hoje : Z) (c : t) :
  estaVencida hoje c = true <-> data_vencimento c < hoje /\ status_of c <> recebido.
Proof.
  unfold estaVencida. rewrite andb_true_iff, Z.ltb_lt, negb_true_iff.
  split; intros [H1 H2]; split; try exact H1.
  - intros E. apply ContaReceber_status_eqb_eq in E. congruence.
  - destruct (status_eqb (status_of c) recebido) eqn:E; [|reflexivity].
    apply ContaReceber_status_eqb_eq in E. contradiction.
Qed.

Lemma calcularJurosMulta_eq (hoje dataBase : Z) (c : t) :
  calcularJurosMulta hoje dataBase c
  = if estaVencida hoje c
    then (Returned (mkEncargos (juros_devidos dataBase c) (multa_devida c)),
          set_valor_juros (juros_devidos dataBase c) (set_valor_multa (multa_devida c) c))
    else (Returned (mkEncargos 0%float 0%float), c).
Proof.
  unfold calcularJurosMulta, bind, get. cbn beta iota.
  destruct (estaVencida hoje c); reflexivity.
Qed.

(** C8 (amended). An entry is overdue when its due date is before the
    current clock and its status is not 'recebido'. [calcularJurosMulta]
    is a no-op returning zero charges unless the entry is overdue by the
    clock; when it is, it sets (does not add) the penalty to
    original * 0.02 and the interest to original * (0.00033 * days),
    days = floor((dataBase - due) / one day), so a second call with the
    same [dataBase] at a later clock stores and returns the same. *)
Theorem C8_late_charges :
  (forall (hoje : Z) (c : t),
      estaVencida hoje c = true <-> data_vencimento c < hoje /\ status_of c <> recebido)
  /\ (forall (hoje dataBase : Z) (c : t),
         estaVencida hoje c = false ->
         calcularJurosMulta hoje dataBase c = (Returned (mkEncargos 0%float 0%float), c))
  /\ (forall (hoje dataBase : Z) (c : t),
         estaVencida hoje c = true ->
         let m := (valor_original c * 0.02)%float in
         let j := (valor_original c
                   * (0.00033 * JS.Math_floor ((JS.ofZ dataBase - JS.ofZ (data_vencimento c))
                                               / 86400000)))%float in
         calcularJurosMulta hoje dataBase c
         = (Returned (mkEncargos j m), set_valor_juros j (set_valor_multa m c)))
  /\ (forall (hoje hoje' dataBase : Z) (c : t),
         estaVencida hoje c = true -> hoje <= hoje' ->
         let c1 := snd (calcularJurosMulta hoje dataBase c) in
         calcularJurosMulta hoje' dataBase c1
         = (fst (calcularJurosMulta hoje dataBase c), c1)).
Proof.
  split; [exact estaVencida_iff|]. split; [|split].
  - intros hoje dataBase c H. now rewrite calcularJurosMulta_eq, H.
  - intros hoje dataBase c H m j. now rewrite calcularJurosMulta_eq, H.
  - intros hoje hoje' dataBase c H Hle c1. subst c1.
    rewrite (calcularJurosMulta_eq hoje dataBase c), H. cbn [fst snd].
    rewrite calcularJurosMulta_eq.
    assert (H' : estaVencida hoje'
                   (set_valor_juros (juros_devidos dataBase c)
                      (set_valor_multa (multa_devida c) c)) = true).
    { apply estaVencida_iff in H as [H1 H2]. apply estaVencida_iff.
      cbn [set_valor_juros set_valor_multa data_vencimento status_of]. split; [lia|exact H2]. }
    rewrite H'. reflexivity.
Qed.

Lemma C8_late_charges_witness :
  calcularJurosMulta (JS.ymd 2024 3 1) (JS.ymd 2024 1 25) conta_exemplo
  = (Returned (mkEncargos (juros_devidos (JS.ymd 2024 1 25) conta_exemplo)
                          (multa_devida conta_exemplo)),
     set_valor_juros (juros_devidos (JS.ymd 2024 1 25) conta_exemplo)
       (set_valor_multa (multa_devida conta_exemplo) conta_exemplo)).
Proof.
  apply (proj1 (proj2 (proj2 C8_late_charges))
           (JS.ymd 2024 3 1) (JS.ymd 2024 1 25) conta_exemplo).
  reflexivity.
Defined.

Lemma C8_counterexample_clock_not_asOf :
  let c' := snd (calcularJurosMulta (JS.ymd 2024 3 1) (JS.ymd 2024 1 10) conta_exemplo) in
  (data_vencimento conta_exemplo <? JS.ymd 2024 1 10) = false
  /\ valor_multa conta_exemplo = 0%float
  /\ valor_multa c' = 2%float
  /\ (valor_juros c' <? 0)%float = true
  /\ c' <> conta_exemplo.
Proof.
  cbv zeta. repeat split; try (vm_compute; reflexivity).
  intros H. apply (f_equal valor_multa) in H.
  apply (f_equal (fun x => (x =? 0)%float)) in H. vm_compute in H. discriminate.
Qed.

Example diasAtraso_examples :
  diasAtraso (JS.ymd 2024 1 25) (JS.ymd 2024 1 15) = 10%float
  /\ diasAtraso (JS.ymd 2024 1 25 + 3600000) (JS.ymd 2024 1 15) = 10%float
  /\ diasAtraso (JS.ymd 2024 1 10) (JS.ymd 2024 1 15) = (-5)%float
  /\ diasAtraso (JS.ymd 2024 1 15 - 1) (JS.ymd 2024 1 15) = (-1)%float.
Proof. repeat split; vm_compute; reflexivity. Qed.

Lemma setMonth_jan15_plus_one (tza : Z) :
  - JS.msPerDay < tza < JS.msPerDay ->
  JS.setMonth tza (JS.ymd 2024 1 15) (JS.getMonth tza (JS.ymd 2024 1 15) + 1)
  = JS.ymd 2024 2 15.
Proof.
  intros Htz.
  change (JS.ymd 2024 1 15) with (19737 * 86400000).
  change (JS.ymd 2024 2 15) with (19768 * 86400000).
  unfold JS.msPerDay in Htz.
  unfold JS.setMonth, JS.getMonth, JS.DateFromTime, JS.MonthFromTime, JS.InLeapYear,
    JS.DayWithinYear, JS.YearFromTime, JS.LocalTime, JS.UTC, JS.MakeDate.
  destruct (Z_lt_le_dec tza 0) as [Hneg|Hpos].
  - assert (HD : JS.Day (19737 * 86400000 + tza) = 19736)
      by (unfold JS.Day, JS.msPerDay; Z.div_mod_to_equations; lia).
    assert (HT : JS.TimeWithinDay (19737 * 86400000 + tza) = tza + 86400000)
      by (unfold JS.TimeWithinDay, JS.msPerDay; Z.div_mod_to_equations; lia).
    rewrite HD, HT.
    match goal with |- JS.MakeDay ?a ?b ?c * _ + _ - _ = _ =>
      let v := eval vm_compute in (JS.MakeDay a b c) in
      change (JS.MakeDay a b c) with v end.
    unfold JS.msPerDay. lia.
  - assert (HD : JS.Day (19737 * 86400000 + tza) = 19737)
      by (unfold JS.Day, JS.msPerDay; Z.div_mod_to_equations; lia).
    assert (HT : JS.TimeWithinDay (19737 * 86400000 + tza) = tza)
      by (unfold JS.TimeWithinDay, JS.msPerDay; Z.div_mod_to_equations; lia).
    rewrite HD, HT.
    match goal with |- JS.MakeDay ?a ?b ?c * _ + _ - _ = _ =>
      let v := eval vm_compute in (JS.MakeDay a b c) in
      change (JS.MakeDay a b c) with v end.
    unfold JS.msPerDay. lia.
Qed.

Lemma dateonly_of_midnight (tza k : Z) :
  - JS.msPerDay < tza < JS.msPerDay ->
  Sequelize.dateonly tza (k * JS.msPerDay)
  = if tza <? 0 then (k - 1) * JS.msPerDay else k * JS.msPerDay.
Proof.
  intros H. unfold Sequelize.dateonly, JS.LocalTime, JS.Day, JS.msPerDay in *.
  destruct (Z.ltb_spec tza 0); Z.div_mod_to_equations; lia.
Qed.

(** C9 (defect of the code). The claim asks that a monthly entry due
    2024-01-15 yield an entry due 2024-02-15. In a process whose zone is
    west of UTC the due date, read as midnight UTC, is the evening of
    the 14th in local time; the month is advanced in local time and the
    DATEONLY attribute keeps the local day, so the entry created is due
    2024-02-14 (with received amount 0, remainder the original amount,
    status 'em_aberto' and no settlement date). *)
Theorem C9_recurrence_west_of_utc (tza : Z) (c : t) :
  - JS.msPerDay < tza < 0 ->
  recorrente c = true -> periodicidade_of c = Some mensal ->
  data_vencimento c = JS.ymd 2024 1 15 ->
  exists c',
    gerarProximaRecorrencia tza c = Returned c'
    /\ data_vencimento c' = JS.ymd 2024 2 14
    /\ data_vencimento c' <> JS.ymd 2024 2 15
    /\ valor_recebido c' = 0%float
    /\ valor_restante c' = valor_original c
    /\ status_of c' = em_aberto
    /\ data_recebimento c' = None.
Proof.
  intros Htz Hr Hp Hd. unfold gerarProximaRecorrencia. rewrite Hr, Hp, Hd.
  eexists. split; [reflexivity|].
  cbn [data_vencimento valor_recebido valor_restante status_of data_recebimento periodos].
  rewrite setMonth_jan15_plus_one by lia.
  change (JS.ymd 2024 2 15) with (19768 * JS.msPerDay).
  rewrite dateonly_of_midnight by lia.
  destruct (Z.ltb_spec tza 0); [|lia].
  change (JS.ymd 2024 2 14) with (19767 * JS.msPerDay).
  repeat split; try reflexivity.
  unfold JS.msPerDay. lia.
Qed.

Lemma C9_recurrence_west_of_utc_witness :
  exists c',
    gerarProximaRecorrencia (-10800000) conta_exemplo = Returned c'
    /\ data_vencimento c' = JS.ymd 2024 2 14.
Proof.
  destruct (C9_recurrence_west_of_utc (-10800000) conta_exemplo) as (c' & H & Hd & _).
  - unfold JS.msPerDay. lia.
  - reflexivity.
  - reflexivity.
  - reflexivity.
  - exists c'. split; [exact H | exact Hd].
Defined.

End Ledger.

(* ------------------------------------------------------------------ *)
(** * Further properties of the models *)

(** ** Calendar *)

Lemma DayFromYear_succ (y : Z) :
  JS.DayFromYear (y + 1) = JS.DayFromYear y + JS.DaysInYear y.
Proof.
  unfold JS.DayFromYear, JS.DaysInYear.
  destruct (Z.eqb_spec (y mod 4) 0); cbn [negb];
    [destruct (Z.eqb_spec (y mod 100) 0); cbn [negb];
       [destruct (Z.eqb_spec (y mod 400) 0); cbn [negb]|]|];
    Z.div_mod_to_equations; lia.
Qed.

Lemma DayFromYear_mono (a b : Z) : a <= b -> JS.DayFromYear a <= JS.DayFromYear b.
Proof. intros H. unfold JS.DayFromYear. Z.div_mod_to_equations. lia. Qed.

Lemma YearFromTime_unique (t y : Z) :
  JS.DayFromYear y <= JS.Day t < JS.DayFromYear (y + 1) -> JS.YearFromTime t = y.
Proof.
  intros [H1 H2]. pose proof (YearFromTime_spec t) as [H3 H4].
  destruct (Z.lt_trichotomy (JS.YearFromTime t) y) as [Hlt|[Heq|Hgt]]; [|exact Heq|].
  - pose proof (DayFromYear_mono (JS.YearFromTime t + 1) y ltac:(lia)). lia.
  - pose proof (DayFromYear_mono (y + 1) (JS.YearFromTime t) ltac:(lia)). lia.
Qed.

Lemma DaysInYear_cases (y : Z) : JS.DaysInYear y = 365 \/ JS.DaysInYear y = 366.
Proof.
  unfold JS.DaysInYear.
  repeat match goal with |- context [if ?c then _ else _] => destruct c end; auto.
Qed.

Lemma Day_MakeDate (day tod : Z) :
  0 <= tod < JS.msPerDay ->
  JS.Day (JS.MakeDate day tod) = day /\ JS.TimeWithinDay (JS.MakeDate day tod) = tod.
Proof.
  unfold JS.Day, JS.TimeWithinDay, JS.MakeDate, JS.msPerDay. intros H.
  split; Z.div_mod_to_equations; lia.
Qed.

Lemma date_of_MakeDay (y m d tod : Z) :
  1 <= d <= 28 -> 0 <= tod < JS.msPerDay ->
  let t := JS.MakeDate (JS.MakeDay y m d) tod in
  JS.YearFromTime t = y + m / 12
  /\ JS.MonthFromTime t = m mod 12
  /\ JS.DateFromTime t = d
  /\ JS.TimeWithinDay t = tod.
Proof.
  intros Hd Htod t.
  destruct (Day_MakeDate (JS.MakeDay y m d) tod Htod) as [HDay HT].
  fold t in HDay, HT.
  set (ym := y + m / 12) in *. set (mn := m mod 12) in *.
  assert (Hmn : 0 <= mn <= 11) by (unfold mn; Z.div_mod_to_equations; lia).
  set (leap := if JS.DaysInYear ym =? 366 then 1 else 0).
  assert (Hleap : JS.DaysInYear ym = 365 + leap).
  { unfold leap. destruct (DaysInYear_cases ym) as [E|E]; rewrite E; reflexivity. }
  assert (Hl01 : leap = 0 \/ leap = 1)
    by (unfold leap; destruct (JS.DaysInYear ym =? 366); auto).
  assert (HMD : JS.MakeDay y m d = JS.DayFromYear ym + JS.daysBeforeMonth mn leap + d - 1)
    by reflexivity.
  assert (Hdbm : JS.daysBeforeMonth mn leap = 0 /\ mn = 0
                 \/ JS.daysBeforeMonth mn leap = 31 /\ mn = 1
                 \/ JS.daysBeforeMonth mn leap = 59 + leap /\ mn = 2
                 \/ JS.daysBeforeMonth mn leap = 90 + leap /\ mn = 3
                 \/ JS.daysBeforeMonth mn leap = 120 + leap /\ mn = 4
                 \/ JS.daysBeforeMonth mn leap = 151 + leap /\ mn = 5
                 \/ JS.daysBeforeMonth mn leap = 181 + leap /\ mn = 6
                 \/ JS.daysBeforeMonth mn leap = 212 + leap /\ mn = 7
                 \/ JS.daysBeforeMonth mn leap = 243 + leap /\ mn = 8
                 \/ JS.daysBeforeMonth mn leap = 273 + leap /\ mn = 9
                 \/ JS.daysBeforeMonth mn leap = 304 + leap /\ mn = 10
                 \/ JS.daysBeforeMonth mn leap = 334 + leap /\ mn = 11).
  { assert (E : mn = 0 \/ mn = 1 \/ mn = 2 \/ mn = 3 \/ mn = 4 \/ mn = 5 \/ mn = 6
                \/ mn = 7 \/ mn = 8 \/ mn = 9 \/ mn = 10 \/ mn = 11) by lia.
    clearbody mn leap.
    repeat (destruct E as [E|E]; [subst mn; cbn [JS.daysBeforeMonth]; tauto|]).
    subst mn; cbn [JS.daysBeforeMonth]; tauto. }
  assert (HY : JS.YearFromTime t = ym).
  { apply YearFromTime_unique. rewrite HDay, HMD, DayFromYear_succ, Hleap. lia. }
  assert (HL : JS.InLeapYear t = leap) by (unfold JS.InLeapYear; rewrite HY; reflexivity).
  assert (HW : JS.DayWithinYear t = JS.daysBeforeMonth mn leap + d - 1)
    by (unfold JS.DayWithinYear; rewrite HY, HDay, HMD; lia).
  assert (HM : JS.MonthFromTime t = mn).
  { unfold JS.MonthFromTime. rewrite HW, HL. clearbody mn leap. clear - Hdbm Hd Hl01.
    set (dbm := JS.daysBeforeMonth mn leap) in *. clearbody dbm.
    repeat match goal with
           | |- context [if ?a <? ?b then _ else _] => destruct (Z.ltb_spec a b)
           end; lia. }
  split; [exact HY|]. split; [exact HM|]. split; [|exact HT].
  unfold JS.DateFromTime. rewrite HM, HL, HW. lia.
Qed.

Lemma DateFromTime_pos (t : Z) : 1 <= JS.DateFromTime t.
Proof.
  pose proof (YearFromTime_spec t) as [H1 _].
  unfold JS.DateFromTime, JS.MonthFromTime.
  assert (H0 : 0 <= JS.DayWithinYear t) by (unfold JS.DayWithinYear; lia).
  assert (Hl : JS.InLeapYear t = 0 \/ JS.InLeapYear t = 1)
    by (unfold JS.InLeapYear; destruct (_ =? _); auto).
  set (w := JS.DayWithinYear t) in *. set (l := JS.InLeapYear t) in *. clearbody w l.
  repeat match goal with
         | |- context [if ?a <? ?b then _ else _] => destruct (Z.ltb_spec a b)
         end; cbn [JS.daysBeforeMonth]; lia.
Qed.

Lemma time_is_its_parts (t : Z) :
  t = JS.MakeDate (JS.MakeDay (JS.YearFromTime t) (JS.MonthFromTime t) (JS.DateFromTime t))
                  (JS.TimeWithinDay t).
Proof.
  pose proof (MonthFromTime_range t) as Hm.
  unfold JS.MakeDay.
  rewrite (Z.div_small (JS.MonthFromTime t) 12) by lia.
  rewrite (Z.mod_small (JS.MonthFromTime t) 12) by lia.
  rewrite Z.add_0_r.
  change (if JS.DaysInYear (JS.YearFromTime t) =? 366 then 1 else 0) with (JS.InLeapYear t).
  unfold JS.DateFromTime, JS.DayWithinYear, JS.MakeDate, JS.TimeWithinDay, JS.Day.
  unfold JS.msPerDay. Z.div_mod_to_equations. lia.
Qed.

Theorem setMonth_keeps_day (tza t n : Z) :
  let lt := JS.LocalTime tza t in
  let lt' := JS.LocalTime tza (JS.setMonth tza t (JS.getMonth tza t + n)) in
  JS.DateFromTime lt <= 28 ->
  JS.YearFromTime lt' = JS.YearFromTime lt + (JS.MonthFromTime lt + n) / 12
  /\ JS.MonthFromTime lt' = (JS.MonthFromTime lt + n) mod 12
  /\ JS.DateFromTime lt' = JS.DateFromTime lt
  /\ JS.TimeWithinDay lt' = JS.TimeWithinDay lt.
Proof.
  intros lt lt' Hd.
  assert (E : lt' = JS.MakeDate (JS.MakeDay (JS.YearFromTime lt) (JS.MonthFromTime lt + n)
                                   (JS.DateFromTime lt)) (JS.TimeWithinDay lt)).
  { unfold lt', JS.setMonth, JS.getMonth, JS.LocalTime, JS.UTC. fold (JS.LocalTime tza t).
    fold lt. lia. }
  rewrite E. apply date_of_MakeDay.
  - pose proof (DateFromTime_pos lt). lia.
  - unfold JS.TimeWithinDay, JS.msPerDay. Z.div_mod_to_equations. lia.
Qed.

(** ** Not-a-number *)

Lemma Prim2SF_nan : Prim2SF nan = S754_nan.
Proof. reflexivity. Qed.

Lemma ltb_nan_r (x : float) : (x <? nan)%float = false.
Proof.
  rewrite ltb_spec, Prim2SF_nan. unfold SFltb.
  destruct (Prim2SF x); reflexivity.
Qed.

Lemma ltb_nan_l (x : float) : (nan <? x)%float = false.
Proof. rewrite ltb_spec, Prim2SF_nan. reflexivity. Qed.

Lemma leb_nan_l (x : float) : (nan <=? x)%float = false.
Proof. rewrite leb_spec, Prim2SF_nan. reflexivity. Qed.

Lemma leb_nan_r (x : float) : (x <=? nan)%float = false.
Proof.
  rewrite leb_spec, Prim2SF_nan. unfold SFleb.
  destruct (Prim2SF x); reflexivity.
Qed.

Lemma add_nan_r (x : float) : (x + nan)%float = nan.
Proof.
  apply Prim2SF_inj. rewrite add_spec, Prim2SF_nan. unfold SF64add.
  destruct (Prim2SF x); reflexivity.
Qed.

Lemma sub_nan_r (x : float) : (x - nan)%float = nan.
Proof.
  apply Prim2SF_inj. rewrite sub_spec, Prim2SF_nan. unfold SF64sub.
  destruct (Prim2SF x); reflexivity.
Qed.

Lemma parseFloat_nan : JS.parseFloat nan = nan.
Proof. reflexivity. Qed.

(** ** Produto *)

Lemma atualizarEstoque_saida_eq (q : JS.number) (p : Produto.t) :
  Produto.atualizarEstoque q "saida" p
  = if (JS.parseFloat (Produto.estoque_atual p) <? JS.parseFloat q)%float
    then (Thrown InsufficientStockError, p)
    else
      let e' := estoque_apos_saida p q in
      (Returned (Produto.mkMovimento (Produto.estoque_atual p) e'
                   (e' - Produto.estoque_atual p)%float),
       Produto.mk e'
         (if (e' <=? 0)%float then Produto.esgotado
          else if Produto.status_eqb (Produto.status_of p) Produto.esgotado
               then Produto.ativo else Produto.status_of p)).
Proof.
  destruct p as [e st]. unfold estoque_apos_saida, Produto.atualizarEstoque. run_method.
  change (String.eqb "saida" "entrada") with false.
  change (String.eqb "saida" "saida") with true. cbn iota.
  cbn [Produto.estoque_atual Produto.status_of].
  destruct (JS.parseFloat e <? JS.parseFloat q)%float; [reflexivity|].
  cbn [Produto.estoque_atual Produto.status_of]. cbn zeta.
  destruct (JS.parseFloat e - JS.parseFloat q <=? 0)%float; [reflexivity|].
  destruct (Produto.status_eqb st Produto.esgotado); reflexivity.
Qed.

Lemma atualizarEstoque_entrada_eq (q : JS.number) (p : Produto.t) :
  Produto.atualizarEstoque q "entrada" p
  = let e' := (JS.parseFloat (Produto.estoque_atual p) + JS.parseFloat q)%float in
    (Returned (Produto.mkMovimento (Produto.estoque_atual p) e'
                 (e' - Produto.estoque_atual p)%float),
     Produto.mk e'
       (if (e' <=? 0)%float then Produto.esgotado
        else if Produto.status_eqb (Produto.status_of p) Produto.esgotado
             then Produto.ativo else Produto.status_of p)).
Proof.
  destruct p as [e st]. unfold Produto.atualizarEstoque. run_method.
  change (String.eqb "entrada" "entrada") with true. cbn iota.
  cbn [Produto.estoque_atual Produto.status_of]. cbn zeta.
  destruct (JS.parseFloat e + JS.parseFloat q <=? 0)%float; [reflexivity|].
  destruct (Produto.status_eqb st Produto.esgotado); reflexivity.
Qed.

(** X6. A movement whose [tipo] is neither 'entrada' nor 'saida' throws
    InvalidOperationError and leaves the product as it was. *)
Theorem atualizarEstoque_unknown_tipo (q : JS.number) (tipo : string) (p : Produto.t) :
  tipo <> "entrada"%string -> tipo <> "saida"%string ->
  Produto.atualizarEstoque q tipo p = (Thrown InvalidOperationError, p).
Proof.
  intros H1 H2. apply String.eqb_neq in H1. apply String.eqb_neq in H2.
  unfold Produto.atualizarEstoque. run_method. rewrite H1, H2. reflexivity.
Qed.

Lemma atualizarEstoque_unknown_tipo_witness :
  Produto.atualizarEstoque 3%float "ajuste" (Produto.mk 5%float Produto.ativo)
  = (Thrown InvalidOperationError, Produto.mk 5%float Produto.ativo).
Proof.
  apply atualizarEstoque_unknown_tipo; discriminate.
Defined.

(** X7. [ItemVenda.validarQuantidade] against the stock of a product
    and [Produto.verificarEstoque] of the item's quantity give the same
    answer, and when it is true the outbound movement of that quantity
    does not throw and leaves the stock minus the quantity. *)
Theorem available_stock_can_be_debited (p : Produto.t) (i : ItemVenda.t) :
  ItemVenda.validarQuantidade (Produto.estoque_atual p) i
  = Produto.disponivel (Produto.verificarEstoque (ItemVenda.quantidade i) p)
  /\ (Produto.disponivel (Produto.verificarEstoque (ItemVenda.quantidade i) p) = true ->
      exists r p',
        Produto.atualizarEstoque (ItemVenda.quantidade i) "saida" p = (Returned r, p')
        /\ Produto.estoque_atual p' = estoque_apos_saida p (ItemVenda.quantidade i)
        /\ Produto.newStock r = Produto.estoque_atual p').
Proof.
  split; [reflexivity|].
  cbn [Produto.verificarEstoque Produto.disponivel]. intros H.
  apply leb_true_ltb_false in H. rewrite <- ltb_parseFloat in H.
  rewrite atualizarEstoque_saida_eq, H. cbn zeta.
  eexists. eexists. split; [reflexivity|]. split; reflexivity.
Qed.

Lemma available_stock_can_be_debited_witness :
  exists r p',
    Produto.atualizarEstoque 2%float "saida" (Produto.mk 5%float Produto.ativo) = (Returned r, p').
Proof.
  destruct (proj2 (available_stock_can_be_debited (Produto.mk 5%float Produto.ativo)
                     item_custo_zero) eq_refl) as (r & p' & H & _).
  exists r, p'. exact H.
Defined.

(** X8. A quantity that is NaN is reported as not available, yet no
    movement refuses it: both 'saida' and 'entrada' return, the stock
    becomes NaN, and the status is never set to 'esgotado'. *)
Theorem atualizarEstoque_nan_quantity (p : Produto.t) :
  let st' := if Produto.status_eqb (Produto.status_of p) Produto.esgotado
             then Produto.ativo else Produto.status_of p in
  Produto.disponivel (Produto.verificarEstoque nan p) = false
  /\ Produto.atualizarEstoque nan "saida" p
     = (Returned (Produto.mkMovimento (Produto.estoque_atual p) nan
                    (nan - Produto.estoque_atual p)%float),
        Produto.mk nan st')
  /\ Produto.atualizarEstoque nan "entrada" p
     = (Returned (Produto.mkMovimento (Produto.estoque_atual p) nan
                    (nan - Produto.estoque_atual p)%float),
        Produto.mk nan st').
Proof.
  cbv zeta. split; [apply leb_nan_l|]. split.
  - rewrite atualizarEstoque_saida_eq. unfold estoque_apos_saida.
    rewrite parseFloat_nan, ltb_nan_r, sub_nan_r. cbn zeta. rewrite leb_nan_l. reflexivity.
  - rewrite atualizarEstoque_entrada_eq.
    rewrite parseFloat_nan, add_nan_r. cbn zeta. rewrite leb_nan_l. reflexivity.
Qed.

Lemma atualizarStatus_eq (agora : Z) (v : Venda.t) (target : Venda.status) :
  Venda.atualizarStatus agora target v =
  if Venda.spec_legal (Venda.status_of v) target
  then (Returned true,
        Venda.mk target
          (if Venda.status_eqb target Venda.entregue
           then Some agora else Venda.data_entrega_realizada v))
  else (Thrown IllegalTransitionError, v).
Proof.
  destruct v as [st de].
  unfold Venda.atualizarStatus, bind, get, modify, ret, throw; simpl.
  rewrite includes_statusValidos_spec.
  destruct (Venda.spec_legal st target); simpl; [|reflexivity].
  destruct (Venda.status_eqb target Venda.entregue); reflexivity.
Qed.

Lemma spec_legal_rank (a b : Venda.status) :
  Venda.spec_legal a b = true -> rank a < rank b.
Proof. destruct a, b; cbn; intros H; try discriminate; lia. Qed.

Lemma rank_range (s : Venda.status) : 0 <= rank s <= 6.
Proof. destruct s; cbn; lia. Qed.

(** X1. Every successful transition moves a sale strictly forward on
    the path pendente, aprovada, em_separacao, faturada, em_transporte,
    entregue, cancelada: a series of successful transitions is at most
    six long and never ends in the status it started from. *)
Theorem sale_status_never_goes_back (agora : Z) (targets : list Venda.status) :
  forall (v v' : Venda.t),
    transicoes agora targets v = Some v' ->
    rank (Venda.status_of v) + Z.of_nat (List.length targets) <= rank (Venda.status_of v')
    /\ (List.length targets <= 6)%nat
    /\ (targets <> [] -> Venda.status_of v' <> Venda.status_of v).
Proof.
  assert (H : forall v v', transicoes agora targets v = Some v' ->
            rank (Venda.status_of v) + Z.of_nat (List.length targets)
            <= rank (Venda.status_of v')).
  { induction targets as [|s rest IH]; intros v v' Ht.
    - injection Ht as <-. cbn. lia.
    - cbn [transicoes] in Ht. rewrite atualizarStatus_eq in Ht.
      destruct (Venda.spec_legal (Venda.status_of v) s) eqn:Hl; [|discriminate].
      apply spec_legal_rank in Hl. apply IH in Ht. cbn [Venda.status_of] in Ht.
      cbn [List.length]. lia. }
  intros v v' Ht. specialize (H v v' Ht).
  pose proof (rank_range (Venda.status_of v)). pose proof (rank_range (Venda.status_of v')).
  split; [exact H|]. split; [lia|].
  intros Hne E. rewrite E in H. destruct targets; [congruence|]. cbn [List.length] in H. lia.
Qed.

Lemma sale_status_never_goes_back_witness :
  rank Venda.pendente + 3 <= rank Venda.faturada.
Proof.
  apply (sale_status_never_goes_back 0
           [Venda.aprovada; Venda.em_separacao; Venda.faturada]
           (Venda.mk Venda.pendente None) (Venda.mk Venda.faturada None)).
  reflexivity.
Defined.

(** X2. [podeSerCancelada] answers true exactly when the transition to
    'cancelada' succeeds: the list of non-cancellable statuses and the
    transition table agree. *)
Theorem podeSerCancelada_iff_cancel_succeeds (agora : Z) (v : Venda.t) :
  Venda.podeSerCancelada v = true
  <-> Venda.atualizarStatus agora Venda.cancelada v
      = (Returned true, Venda.mk Venda.cancelada (Venda.data_entrega_realizada v)).
Proof.
  rewrite atualizarStatus_eq. destruct v as [st de]. unfold Venda.podeSerCancelada.
  cbn [Venda.status_of Venda.data_entrega_realizada].
  destruct st; cbn; split; intros H; try reflexivity; discriminate.
Qed.

(** ** Sale totals *)

(** X3. When the discount percentage of a sale is greater than zero,
    [calcularTotais] ignores the absolute discount: any value of
    [desconto_valor] gives the same returned totals and the same stored
    total. *)
Theorem sale_discount_percentage_wins (v : VendaValores.t) (x : JS.number) :
  (0 <? VendaValores.desconto_percentual v)%float = true ->
  let v2 := VendaValores.mk (VendaValores.subtotal v) (VendaValores.desconto_percentual v) x
              (VendaValores.acrescimo_percentual v) (VendaValores.acrescimo_valor v)
              (VendaValores.valor_frete v) (VendaValores.valor_total v) in
  fst (VendaValores.calcularTotais v2) = fst (VendaValores.calcularTotais v)
  /\ VendaValores.valor_total (snd (VendaValores.calcularTotais v2))
     = VendaValores.valor_total (snd (VendaValores.calcularTotais v)).
Proof.
  intros H v2.
  unfold VendaValores.calcularTotais, bind, get, modify, ret. cbn beta iota zeta.
  unfold VendaValores.valorDesconto, VendaValores.valorAcrescimo, v2.
  cbn [VendaValores.subtotal VendaValores.desconto_percentual VendaValores.desconto_valor
       VendaValores.acrescimo_percentual VendaValores.acrescimo_valor
       VendaValores.valor_frete VendaValores.valor_total fst snd].
  rewrite H. split; reflexivity.
Qed.

Lemma sale_discount_percentage_wins_witness :
  fst (VendaValores.calcularTotais (VendaValores.mk 200 10 999 0 0 15 0)%float)
  = fst (VendaValores.calcularTotais (VendaValores.mk 200 10 5 0 0 15 0)%float).
Proof.
  apply (sale_discount_percentage_wins (VendaValores.mk 200 10 5 0 0 15 0)%float 999%float).
  reflexivity.
Defined.

(** ** Access key: characters that are not digits *)

Lemma somaLoop_None (l : list ascii) : forall p, NotaFiscal.somaLoop l None p = None.
Proof. induction l as [|c l IH]; intros p; [reflexivity | apply IH]. Qed.

Lemma somaLoop_not_digits (l : list ascii) : forall s p,
  forallb JS.isDigit l = false -> NotaFiscal.somaLoop l s p = None.
Proof.
  induction l as [|c l IH]; intros s p H; [discriminate|].
  cbn [forallb] in H. cbn [NotaFiscal.somaLoop].
  destruct (JS.isDigit c) eqn:Hc.
  - apply IH. exact H.
  - unfold NotaFiscal.somaStep, JS.parseInt. rewrite Hc.
    destruct s; apply somaLoop_None.
Qed.

Lemma digitoVerificador_NaN (base : string) :
  NotaFiscal.allDigits base = false -> NotaFiscal.digitoVerificador base = "NaN"%string.
Proof.
  intros H. unfold NotaFiscal.digitoVerificador.
  rewrite somaLoop_not_digits; [reflexivity|].
  rewrite forallb_rev. exact H.
Qed.

Lemma allDigits_padStart_zero (n : nat) (s : string) :
  NotaFiscal.allDigits (JS.padStart n "0" s) = NotaFiscal.allDigits s.
Proof. unfold JS.padStart. now rewrite allDigits_append, allDigits_repeat_zero. Qed.

(** X4. When the tax id contains a character that is not a digit (a
    formatted CNPJ), the check digit is the text NaN: the key is the
    base followed by "NaN", three characters longer than the base. *)
Theorem gerarChaveAcesso_formatted_cnpj (emp : NotaFiscal.empresa) (cNF : Z)
    (nf : NotaFiscal.t) :
  NotaFiscal.allDigits (NotaFiscal.cnpj emp) = false ->
  NotaFiscal.gerarChaveAcesso emp cNF nf
  = (NotaFiscal.baseChave emp cNF nf ++ "NaN")%string
  /\ String.length (NotaFiscal.gerarChaveAcesso emp cNF nf)
     = (String.length (NotaFiscal.baseChave emp cNF nf) + 3)%nat.
Proof.
  intros H.
  assert (Hb : NotaFiscal.allDigits (NotaFiscal.baseChave emp cNF nf) = false).
  { unfold NotaFiscal.baseChave. cbv zeta.
    rewrite !allDigits_append, (allDigits_padStart_zero 14 (NotaFiscal.cnpj emp)), H.
    rewrite !andb_false_r. reflexivity. }
  unfold NotaFiscal.gerarChaveAcesso. cbv zeta.
  rewrite (digitoVerificador_NaN _ Hb). split; [reflexivity|].
  rewrite length_append. reflexivity.
Qed.

Lemma gerarChaveAcesso_formatted_cnpj_witness :
  String.length
    (NotaFiscal.gerarChaveAcesso (NotaFiscal.mkEmpresa 35 "11.222.333/0001-81") 12345678
       nota_exemplo)
  = (String.length
       (NotaFiscal.baseChave (NotaFiscal.mkEmpresa 35 "11.222.333/0001-81") 12345678
          nota_exemplo) + 3)%nat.
Proof.
  apply (gerarChaveAcesso_formatted_cnpj (NotaFiscal.mkEmpresa 35 "11.222.333/0001-81")
           12345678 nota_exemplo).
  reflexivity.
Defined.

(** ** Access key: the check digit can be recomputed from the key *)

Lemma baseChave_layout (emp : NotaFiscal.empresa) (cNF : Z) (nf : NotaFiscal.t) :
  fields_fit emp cNF nf ->
  String.length (NotaFiscal.baseChave emp cNF nf) = 43%nat
  /\ NotaFiscal.allDigits (NotaFiscal.baseChave emp cNF nf) = true.
Proof.
  intros (Huf & Hcl & Hcd & Hse & Hnu & Hcn & Hy).
  pose proof (MonthFromTime_range (NotaFiscal.data_emissao nf)) as Hm.
  unfold NotaFiscal.baseChave. cbv zeta.
  destruct (toISOString_slices _ Hy) as [-> ->].
  fold (JS.pad 2 (NotaFiscal.codigo_uf emp)). fold (JS.pad 3 (NotaFiscal.serie nf)).
  fold (JS.pad 9 (NotaFiscal.numero nf)). fold (JS.pad 8 cNF).
  assert (LY : String.length (JS.pad 4 (JS.YearFromTime (NotaFiscal.data_emissao nf))) = 4%nat).
  { apply (pad_length 4 4); [lia|]. change (10 ^ Z.of_nat 4) with 10000. lia. }
  split.
  - rewrite !length_append.
    rewrite (pad_length 2 2) by (try lia; change (10 ^ Z.of_nat 2) with 100; lia).
    unfold JS.slice at 1. rewrite length_substring by (rewrite LY; reflexivity).
    rewrite (pad_length 2 2) by (try lia; change (10 ^ Z.of_nat 2) with 100; lia).
    rewrite length_padStart by exact Hcl.
    rewrite (pad_length 3 3) by (try lia; change (10 ^ Z.of_nat 3) with 1000; lia).
    rewrite (pad_length 9 9) by (try lia; change (10 ^ Z.of_nat 9) with 1000000000; lia).
    rewrite (pad_length 8 8) by (try lia; change (10 ^ Z.of_nat 8) with 100000000; lia).
    destruct (NotaFiscal.tipo nf); reflexivity.
  - rewrite !allDigits_append. unfold JS.slice.
    rewrite !pad_allDigits by lia.
    rewrite allDigits_substring by (apply pad_allDigits; lia).
    rewrite allDigits_padStart by exact Hcd.
    destruct (NotaFiscal.tipo nf); reflexivity.
Qed.

(** X5. For inputs that fit the widths, the first 43 characters of the
    returned key are the base, recomputing the check digit over them
    gives the 44th character, and the key consists of digits only. *)
Theorem access_key_check_digit_recomputed (emp : NotaFiscal.empresa) (cNF : Z)
    (nf : NotaFiscal.t) :
  fields_fit emp cNF nf ->
  let key := NotaFiscal.gerarChaveAcesso emp cNF nf in
  substring 0 43 key = NotaFiscal.baseChave emp cNF nf
  /\ NotaFiscal.digitoVerificador (substring 0 43 key) = substring 43 1 key
  /\ NotaFiscal.allDigits key = true.
Proof.
  intros Hfit key. destruct (baseChave_layout emp cNF nf Hfit) as [HL HD].
  unfold key, NotaFiscal.gerarChaveAcesso. cbv zeta.
  set (base := NotaFiscal.baseChave emp cNF nf) in *.
  assert (E1 : substring 0 43 (base ++ NotaFiscal.digitoVerificador base) = base).
  { rewrite substring_append_left by (rewrite HL; lia).
    rewrite <- HL. apply substring_whole. }
  rewrite E1. split; [reflexivity|].
  rewrite (digitoVerificador_spec base HD).
  split.
  - change 43%nat with (43 + 0)%nat. rewrite <- HL at 1.
    rewrite substring_append_right. reflexivity.
  - rewrite allDigits_append, HD. cbn [andb].
    unfold NotaFiscal.allDigits. cbn [list_ascii_of_string forallb].
    rewrite isDigit_digitChar by apply spec_check_digit_range. reflexivity.
Qed.

Lemma access_key_check_digit_recomputed_witness :
  NotaFiscal.digitoVerificador
    (substring 0 43 (NotaFiscal.gerarChaveAcesso empresa_exemplo 12345678 nota_exemplo))
  = substring 43 1 (NotaFiscal.gerarChaveAcesso empresa_exemplo 12345678 nota_exemplo).
Proof.
  apply (access_key_check_digit_recomputed empresa_exemplo 12345678 nota_exemplo).
  unfold fields_fit.
  repeat split; first [vm_compute; reflexivity | vm_compute; discriminate | vm_compute; lia].
Defined.

(** ** Carrier counters *)

Lemma registerDelivery_eq (agora : Z) (onTime : bool) (c : Transportadora.t) :
  Transportadora.registerDelivery agora onTime c
  = (Returned tt,
     Transportadora.mk (Transportadora.total_entregas c + 1)
       (Transportadora.entregas_no_prazo c + (if onTime then 1 else 0))
       (Some agora) (Transportadora.avaliacao c)).
Proof.
  destruct c as [t n u a]. unfold Transportadora.registerDelivery. run_method.
  destruct onTime; cbn; [reflexivity|]. now rewrite Z.add_0_r.
Qed.

(** X13. Registering a series of deliveries on a carrier with
    0 <= on-time <= total adds their number to the total and the number
    of on-time ones to the on-time count, keeps 0 <= on-time <= total,
    leaves the rating alone and stamps the last delivery. *)
Theorem registerDeliveries_counters (agora : Z) (onTimes : list bool) :
  forall c : Transportadora.t,
    0 <= Transportadora.entregas_no_prazo c <= Transportadora.total_entregas c ->
    let c' := Transportadora.registerDeliveries agora onTimes c in
    Transportadora.total_entregas c'
    = Transportadora.total_entregas c + Z.of_nat (List.length onTimes)
    /\ Transportadora.entregas_no_prazo c'
       = Transportadora.entregas_no_prazo c
         + Z.of_nat (List.length (filter (fun b => b) onTimes))
    /\ 0 <= Transportadora.entregas_no_prazo c' <= Transportadora.total_entregas c'
    /\ Transportadora.avaliacao c' = Transportadora.avaliacao c
    /\ (onTimes <> [] -> Transportadora.ultima_entrega c' = Some agora).
Proof.
  induction onTimes as [|b rest IH]; intros c Hinv.
  - cbn. repeat split; try lia. congruence.
  - cbn [Transportadora.registerDeliveries]. rewrite registerDelivery_eq. cbn [snd].
    set (c1 := Transportadora.mk _ _ _ _).
    assert (H1 : 0 <= Transportadora.entregas_no_prazo c1 <= Transportadora.total_entregas c1)
      by (unfold c1; cbn; destruct b; lia).
    destruct (IH c1 H1) as (A & B & C & D & E).
    cbv zeta.
    split; [rewrite A; unfold c1; cbn [Transportadora.total_entregas List.length]; lia|].
    split; [rewrite B; unfold c1; cbn [Transportadora.entregas_no_prazo];
            destruct b; cbn [filter List.length]; lia|].
    split; [exact C|].
    split; [rewrite D; reflexivity|].
    intros _. destruct rest as [|b' rest'].
    + reflexivity.
    + apply E. discriminate.
Qed.

Lemma registerDeliveries_counters_witness :
  Transportadora.total_entregas
    (Transportadora.registerDeliveries 0 [true; false; true]
       (Transportadora.mk 0 0 None None)) = 0 + 3.
Proof.
  apply (registerDeliveries_counters 0 [true; false; true] (Transportadora.mk 0 0 None None)).
  cbn. lia.
Defined.

(** X14. [updateRating] stores the rating and returns true only for a
    rating between 0 and 5, leaving the counters alone; for any other
    rating it returns false and changes nothing. *)
Theorem updateRating_range (rating : JS.number) (c : Transportadora.t) :
  (exists c',
      Transportadora.updateRating rating c = (Returned true, c')
      /\ Transportadora.avaliacao c' = Some rating
      /\ (0 <=? rating)%float = true /\ (rating <=? 5)%float = true
      /\ (Transportadora.total_entregas c', Transportadora.entregas_no_prazo c',
          Transportadora.ultima_entrega c')
         = (Transportadora.total_entregas c, Transportadora.entregas_no_prazo c,
            Transportadora.ultima_entrega c))
  \/ (Transportadora.updateRating rating c = (Returned false, c)
      /\ ((0 <=? rating)%float = false \/ (rating <=? 5)%float = false)).
Proof.
  unfold Transportadora.updateRating.
  destruct (0 <=? rating)%float; cbn [andb];
    [destruct (rating <=? 5)%float|]; [left|right|right].
  - eexists. split; [reflexivity|]. repeat split.
  - split; [reflexivity|]. now right.
  - split; [reflexivity|]. now left.
Qed.

Theorem updateRating_nan (c : Transportadora.t) :
  Transportadora.updateRating nan c = (Returned false, c).
Proof. unfold Transportadora.updateRating. rewrite leb_nan_r. reflexivity. Qed.

(** ** Product prices *)

(** X15. With a cost price of zero [Produto.calcularMargem] does not
    throw: it stores and returns NaN or an infinity. *)
Theorem calcularMargem_zero_cost (precoVenda : option JS.number) (p : ProdutoPrecos.t) :
  (ProdutoPrecos.preco_custo p =? 0)%float = true ->
  exists m p',
    ProdutoPrecos.calcularMargem precoVenda p = (Returned m, p')
    /\ ProdutoPrecos.margem_lucro p' = Some m
    /\ not_finite m.
Proof.
  intros Hz. unfold ProdutoPrecos.calcularMargem. run_method. cbv zeta.
  eexists. eexists. split; [reflexivity|]. cbn [ProdutoPrecos.margem_lucro].
  split; [reflexivity|]. now apply div_by_zero_times_100.
Qed.

Lemma calcularMargem_zero_cost_witness :
  exists m p',
    ProdutoPrecos.calcularMargem None (ProdutoPrecos.mk 0 10 None None None None)%float
    = (Returned m, p') /\ not_finite m.
Proof.
  destruct (calcularMargem_zero_cost None (ProdutoPrecos.mk 0 10 None None None None)%float
              eq_refl) as (m & p' & H & _ & Hm).
  exists m, p'. split; assumption.
Defined.

(** X16. [getPrecoAtual] is the promotional price or the list price;
    it is the list price whenever the promotional price is null, zero or
    NaN, whenever the clock is outside the promotion window, and, for a
    clock after the epoch, whenever the end date is null; inside the
    window with a promotional price set it is the promotional price. *)
Theorem getPrecoAtual_window (agora : Z) (p : ProdutoPrecos.t) :
  (ProdutoPrecos.getPrecoAtual agora p = ProdutoPrecos.preco_promocional p
   \/ ProdutoPrecos.getPrecoAtual agora p = Some (ProdutoPrecos.preco_venda p))
  /\ (ProdutoPrecos.truthy (ProdutoPrecos.preco_promocional p) = false ->
      ProdutoPrecos.getPrecoAtual agora p = Some (ProdutoPrecos.preco_venda p))
  /\ (agora < ProdutoPrecos.dateValue (ProdutoPrecos.data_inicio_promocao p)
      \/ ProdutoPrecos.dateValue (ProdutoPrecos.data_fim_promocao p) < agora ->
      ProdutoPrecos.getPrecoAtual agora p = Some (ProdutoPrecos.preco_venda p))
  /\ (ProdutoPrecos.data_fim_promocao p = None -> 0 < agora ->
      ProdutoPrecos.getPrecoAtual agora p = Some (ProdutoPrecos.preco_venda p))
  /\ (ProdutoPrecos.truthy (ProdutoPrecos.preco_promocional p) = true ->
      ProdutoPrecos.dateValue (ProdutoPrecos.data_inicio_promocao p) <= agora
      <= ProdutoPrecos.dateValue (ProdutoPrecos.data_fim_promocao p) ->
      ProdutoPrecos.getPrecoAtual agora p = ProdutoPrecos.preco_promocional p).
Proof.
  unfold ProdutoPrecos.getPrecoAtual, ProdutoPrecos.emPromocao.
  split; [|split; [|split; [|split]]].
  - destruct (_ && _ && _); auto.
  - intros ->. reflexivity.
  - intros [H|H].
    + destruct (Z.leb_spec (ProdutoPrecos.dateValue (ProdutoPrecos.data_inicio_promocao p)) agora);
        [lia|]. now rewrite andb_false_r.
    + destruct (Z.leb_spec agora (ProdutoPrecos.dateValue (ProdutoPrecos.data_fim_promocao p)));
        [lia|]. now rewrite andb_false_r.
  - intros -> H. cbn [ProdutoPrecos.dateValue].
    destruct (Z.leb_spec agora 0); [lia|]. now rewrite andb_false_r.
  - intros -> [H1 H2].
    apply Z.leb_le in H1. apply Z.leb_le in H2. now rewrite H1, H2.
Qed.

Lemma getPrecoAtual_window_witness :
  ProdutoPrecos.getPrecoAtual (JS.ymd 2024 1 15)
    (ProdutoPrecos.mk 4%float 10%float None (Some 0%float)
       (Some (JS.ymd 2024 1 1)) (Some (JS.ymd 2024 1 31)))
  = Some 10%float.
Proof.
  apply (proj1 (proj2 (getPrecoAtual_window (JS.ymd 2024 1 15)
           (ProdutoPrecos.mk 4%float 10%float None (Some 0%float)
              (Some (JS.ymd 2024 1 1)) (Some (JS.ymd 2024 1 31)))))).
  reflexivity.
Defined.

Section LedgerMore.

Import ContaReceber.

(** X9. An entry that is overdue stays overdue as the clock advances;
    a settled entry is never overdue; no entry is overdue on or before
    its due date. *)
Theorem estaVencida_clock (c : t) :
  (forall hoje hoje', hoje <= hoje' -> estaVencida hoje c = true -> estaVencida hoje' c = true)
  /\ (status_of c = recebido -> forall hoje, estaVencida hoje c = false)
  /\ (forall hoje, hoje <= data_vencimento c -> estaVencida hoje c = false).
Proof.
  split; [|split].
  - intros hoje hoje' Hle H. apply estaVencida_iff in H as [H1 H2].
    apply estaVencida_iff. split; [lia | exact H2].
  - intros H hoje. unfold estaVencida. rewrite H. cbn. apply andb_false_r.
  - intros hoje H. unfold estaVencida.
    destruct (Z.ltb_spec (data_vencimento c) hoje); [lia|reflexivity].
Qed.

Lemma estaVencida_clock_witness :
  estaVencida (JS.ymd 2024 3 1) conta_exemplo = true.
Proof.
  apply (proj1 (estaVencida_clock conta_exemplo) (JS.ymd 2024 2 1) (JS.ymd 2024 3 1)).
  - vm_compute. discriminate.
  - reflexivity.
Defined.

(** X10. An amount that is NaN is never refused: the settlement
    returns, the received amount and the remainder become NaN, the
    local calendar day of the date is stored and the status is left as
    it was. *)
Theorem registrarRecebimento_nan_amount (tza : Z) (c : t) (d : Z) :
  exists r c',
    registrarRecebimento tza nan d c = (Returned r, c')
    /\ valor_recebido c' = nan
    /\ valor_restante c' = nan
    /\ status_of c' = status_of c
    /\ data_recebimento c' = Some (Sequelize.dateonly tza d).
Proof.
  rewrite registrarRecebimento_eq, ltb_nan_r.
  eexists. eexists. split; [reflexivity|].
  unfold apos_recebimento.
  set (c2 := creditado tza nan d c).
  assert (F1 : valor_recebido c2 = nan).
  { unfold c2, creditado. cbn [valor_recebido set_valor_restante set_data_recebimento
                                 set_valor_recebido].
    rewrite parseFloat_nan. apply add_nan_r. }
  assert (F2 : valor_restante c2 = nan).
  { unfold c2, creditado. cbn [valor_restante set_valor_restante].
    unfold restante at 1.
    cbn [valor_recebido valor_original valor_juros valor_multa valor_desconto
         set_valor_restante set_data_recebimento set_valor_recebido].
    rewrite parseFloat_nan, add_nan_r, parseFloat_nan. apply sub_nan_r. }
  assert (F3 : status_of c2 = status_of c) by reflexivity.
  assert (F4 : data_recebimento c2 = Some (Sequelize.dateonly tza d)) by reflexivity.
  clearbody c2. rewrite F2, F1.
  change (nan =? 0)%float with false. change (0 <? nan)%float with false.
  repeat split; assumption.
Qed.

(** X11. The entry [gerarProximaRecorrencia] creates is recurring with
    the same periodicity, so the next one can be generated from it; it
    inherits the accrued interest and penalty while its stored remainder
    is the original amount alone. *)
Theorem gerarProximaRecorrencia_chain (tza : Z) (c c' : t) :
  gerarProximaRecorrencia tza c = Returned c' ->
  exists c'',
    gerarProximaRecorrencia tza c' = Returned c''
    /\ periodicidade_of c'' = periodicidade_of c
    /\ valor_original c'' = valor_original c
    /\ (valor_juros c', valor_multa c') = (valor_juros c, valor_multa c)
    /\ valor_restante c' = valor_original c.
Proof.
  unfold gerarProximaRecorrencia.
  destruct (recorrente c) eqn:Hr; [|discriminate].
  destruct (periodicidade_of c) as [p|] eqn:Hp; [|discriminate].
  intros H. injection H as <-.
  cbn [recorrente periodicidade_of].
  eexists. split; [reflexivity|]. cbn. repeat split.
Qed.

Lemma gerarProximaRecorrencia_chain_witness :
  exists c'',
    gerarProximaRecorrencia 0
      (conta_recorrente (JS.ymd 2024 2 15) mensal)
    = Returned c''.
Proof.
  destruct (gerarProximaRecorrencia_chain 0 conta_exemplo
              (conta_recorrente (JS.ymd 2024 2 15) mensal)
              eq_refl) as (c'' & H & _).
  exists c''. exact H.
Defined.

Lemma date_parts_of_the_day (a b : Z) :
  JS.Day a = JS.Day b ->
  JS.YearFromTime a = JS.YearFromTime b
  /\ JS.MonthFromTime a = JS.MonthFromTime b
  /\ JS.DateFromTime a = JS.DateFromTime b.
Proof.
  intros H.
  assert (HY : JS.YearFromTime a = JS.YearFromTime b)
    by (unfold JS.YearFromTime; rewrite H; reflexivity).
  assert (HL : JS.InLeapYear a = JS.InLeapYear b)
    by (unfold JS.InLeapYear; rewrite HY; reflexivity).
  assert (HW : JS.DayWithinYear a = JS.DayWithinYear b)
    by (unfold JS.DayWithinYear; rewrite H, HY; reflexivity).
  assert (HM : JS.MonthFromTime a = JS.MonthFromTime b)
    by (unfold JS.MonthFromTime; rewrite HW, HL; reflexivity).
  split; [exact HY|]. split; [exact HM|].
  unfold JS.DateFromTime. now rewrite HW, HM, HL.
Qed.

Lemma next_due_date_east_of_utc (tza t n : Z) :
  0 <= tza < JS.msPerDay -> JS.TimeWithinDay t = 0 ->
  Sequelize.dateonly tza (JS.setMonth tza t (JS.getMonth tza t + n))
  = JS.MakeDate (JS.MakeDay (JS.YearFromTime t) (JS.MonthFromTime t + n)
                            (JS.DateFromTime t)) 0.
Proof.
  intros Htz Hmid.
  assert (HD : JS.Day (JS.LocalTime tza t) = JS.Day t).
  { unfold JS.LocalTime, JS.Day, JS.TimeWithinDay, JS.msPerDay in *.
    Z.div_mod_to_equations. lia. }
  assert (HT : JS.TimeWithinDay (JS.LocalTime tza t) = tza).
  { unfold JS.LocalTime, JS.TimeWithinDay, JS.msPerDay in *.
    Z.div_mod_to_equations. lia. }
  destruct (date_parts_of_the_day _ _ HD) as (HY & HM & HDt).
  unfold JS.setMonth, JS.getMonth. rewrite HY, HM, HDt, HT.
  set (md := JS.MakeDay _ _ _).
  unfold JS.UTC, JS.MakeDate.
  replace (md * JS.msPerDay + tza - tza) with (md * JS.msPerDay) by lia.
  rewrite dateonly_of_midnight by lia.
  destruct (Z.ltb_spec tza 0); lia.
Qed.

(** X12. In a process whose zone is at or east of UTC, when the due
    date falls on day 28 or earlier of its month, the entry created is
    due on the same day of the month, in the month advanced by the
    periodicity's count modulo 12, with the year carried. *)
Theorem gerarProximaRecorrencia_same_day (tza : Z) (c c' : t) (p : periodicidade) :
  gerarProximaRecorrencia tza c = Returned c' ->
  periodicidade_of c = Some p ->
  0 <= tza < JS.msPerDay ->
  JS.TimeWithinDay (data_vencimento c) = 0 ->
  JS.DateFromTime (data_vencimento c) <= 28 ->
  JS.DateFromTime (data_vencimento c') = JS.DateFromTime (data_vencimento c)
  /\ JS.MonthFromTime (data_vencimento c')
     = (JS.MonthFromTime (data_vencimento c) + periodos p) mod 12
  /\ JS.YearFromTime (data_vencimento c')
     = JS.YearFromTime (data_vencimento c)
       + (JS.MonthFromTime (data_vencimento c) + periodos p) / 12
  /\ JS.TimeWithinDay (data_vencimento c') = 0.
Proof.
  unfold gerarProximaRecorrencia.
  destruct (recorrente c); [|discriminate].
  intros H Hp. rewrite Hp in H. injection H as <-.
  cbn [data_vencimento]. intros Htz Hmid Hd.
  rewrite (next_due_date_east_of_utc tza (data_vencimento c) (periodos p) Htz Hmid).
  pose proof (DateFromTime_pos (data_vencimento c)) as Hpos.
  destruct (date_of_MakeDay (JS.YearFromTime (data_vencimento c))
              (JS.MonthFromTime (data_vencimento c) + periodos p)
              (JS.DateFromTime (data_vencimento c)) 0) as (A & B & C & D).
  - lia.
  - unfold JS.msPerDay. lia.
  - repeat split; assumption.
Qed.

Lemma gerarProximaRecorrencia_same_day_witness :
  JS.DateFromTime (JS.ymd 2025 2 15) = JS.DateFromTime (JS.ymd 2024 11 15)
  /\ JS.MonthFromTime (JS.ymd 2025 2 15) = 1
  /\ JS.YearFromTime (JS.ymd 2025 2 15) = 2025.
Proof.
  pose (c := conta_recorrente (JS.ymd 2024 11 15) trimestral).
  pose (c' := conta_recorrente (JS.ymd 2025 2 15) trimestral).
  destruct (gerarProximaRecorrencia_same_day 3600000 c c' trimestral) as (A & B & C & _).
  - vm_compute. reflexivity.
  - reflexivity.
  - unfold JS.msPerDay. lia.
  - reflexivity.
  - vm_compute. discriminate.
  - repeat split; assumption.
Defined.

(** X17. [gerarProximaRecorrencia] throws NotRecurringError exactly
    when the flag [recorrente] is off or the periodicity is missing;
    otherwise the entry created has received amount 0, remainder equal
    to the original amount, status 'em_aberto', no settlement date and
    no next-due date, whatever the receiver held in those fields. *)
Theorem gerarProximaRecorrencia_outcome (tza : Z) (c : t) :
  (gerarProximaRecorrencia tza c = Thrown NotRecurringError
   <-> recorrente c = false \/ periodicidade_of c = None)
  /\ forall c', gerarProximaRecorrencia tza c = Returned c' ->
       valor_recebido c' = 0%float
       /\ valor_restante c' = valor_original c
       /\ status_of c' = em_aberto
       /\ data_recebimento c' = None
       /\ data_proximo_vencimento c' = None
       /\ (valor_original c', valor_desconto c', recorrente c', periodicidade_of c')
          = (valor_original c, valor_desconto c, recorrente c, periodicidade_of c).
Proof.
  unfold gerarProximaRecorrencia.
  destruct (recorrente c) eqn:Hr; [destruct (periodicidade_of c) as [p|] eqn:Hp|].
  - split.
    + split; [discriminate | intros [H|H]; discriminate].
    + intros c' H. injection H as <-. cbn. repeat split.
  - split; [split; auto | intros c' H; discriminate].
  - split; [split; auto | intros c' H].
    destruct (periodicidade_of c); discriminate.
Qed.

Lemma gerarProximaRecorrencia_outcome_witness :
  valor_recebido (conta_recorrente (JS.ymd 2024 2 15) mensal) = 0%float.
Proof.
  apply (proj2 (gerarProximaRecorrencia_outcome 0 conta_exemplo)
           (conta_recorrente (JS.ymd 2024 2 15) mensal)).
  reflexivity.
Defined.

(** The day of the month overflows into the next month when the target
    month is shorter: due 2024-01-31, monthly, gives 2024-03-02. *)
Example gerarProximaRecorrencia_month_end :
  gerarProximaRecorrencia 0
    (conta_recorrente (JS.ymd 2024 1 31) mensal)
  = Returned (conta_recorrente (JS.ymd 2024 3 2) mensal).
Proof. vm_compute. reflexivity. Qed.

End LedgerMore.
